(** * unity_build.py: the SCons unity-build tool, embedded and verified

    The development follows [src/unity_build.py]:
    - [Py] has the Python primitives the tool relies on (integer ceiling
      of a true division, list slices, [range], [str.replace],
      [os.path.basename]);
    - [Partition] has the arithmetic of lines 77-80 and the slices of
      lines 93-97;
    - [Flatten] has [_flatten_source];
    - [Effects] has the small exception/state monad in which the generator
      and the renderer run (a log of the calls made to the outside world
      and the contents of the files written);
    - [Render] has [_generate_unity_file];
    - [Generator] has [_make_generator]. *)

From Stdlib Require Import ZArith String Ascii List Lia.
From stdpp Require Import base option list gmap strings pretty.

Set Warnings "-register-all".

Local Open Scope Z_scope.

(** ** Python primitives *)

Module Py.

(** The exceptions the modelled code can raise by itself. *)
Inductive exn : Type :=
| ZeroDivisionError
| AssertionError.

(** [math.ceil(a / b)] on Python integers.  [a / b] is a true division and
    raises [ZeroDivisionError] when [b] is zero; otherwise the ceiling of
    the quotient is [-((-a) // b)], floor division being [Z.div] for either
    sign of the divisor.  The quotient goes through a double in Python; for
    [|a| < 2^53], which every list length satisfies, the rounded quotient
    lies strictly between the same two integers as the exact one (or is the
    same integer), so the ceiling below is the one Python returns. *)
Definition ceil_div (a b : Z) : option Z :=
  if b =? 0 then None else Some (- ((- a) `div` b)).

(** [range(n)]: the integers [0 .. n-1], empty when [n <= 0]. *)
Definition range (n : Z) : list Z := seqZ 0 n.

(** One bound of a slice [l[b:e]], as CPython normalises it: a negative
    index counts from the end, and the result is clamped to [0 .. len]. *)
Definition slice_index (len i : Z) : Z :=
  if i <? 0 then Z.max 0 (i + len) else Z.min i len.

(** [l[b:e]]. *)
Definition slice {A : Type} (l : list A) (b e : Z) : list A :=
  let len := Z.of_nat (length l) in
  let b' := slice_index len b in
  let e' := slice_index len e in
  take (Z.to_nat (e' - b')) (drop (Z.to_nat b') l).

(** [s.replace(old, new)] for a non-empty [old]: the occurrences of [old]
    are found from the left and do not overlap.  [skip] counts the
    characters of a matched occurrence that are still to be passed over. *)
Fixpoint replace_from (skip : nat) (old new s : string) : string :=
  match s with
  | EmptyString => EmptyString
  | String c rest =>
      match skip with
      | S k => replace_from k old new rest
      | O =>
          if String.prefix old s
          then new +:+ replace_from (String.length old - 1) old new rest
          else String c (replace_from O old new rest)
      end
  end.

Definition replace (s old new : string) : string := replace_from O old new s.

(** [os.path.basename(p)] (posixpath): what follows the last slash. *)
Fixpoint basename_from (acc p : string) : string :=
  match p with
  | EmptyString => acc
  | String c rest =>
      if Ascii.eqb c "/" then basename_from EmptyString rest
      else basename_from (acc +:+ String c EmptyString) rest
  end.

Definition basename (p : string) : string := basename_from EmptyString p.

(** [len(l)] as a Python integer. *)
Definition len {A : Type} (l : list A) : Z := Z.of_nat (length l).

End Py.

(** ** The partitioner: lines 77-80 and 93-97 of [generator] *)

Module Partition.

(** Lines 77-78:
    [max_sources_per_file = max(1, math.ceil(len(source_files) / env['UNITY_MIN_FILES']))]
    [sources_per_file = min(max_sources_per_file, env['UNITY_MAX_SOURCES'])]. *)
Definition max_sources_per_file (T K : Z) : option Z :=
  c ← Py.ceil_div T K; Some (Z.max 1 c).

Definition sources_per_file (T K M : Z) : option Z :=
  m ← max_sources_per_file T K; Some (Z.min m M).

(** Line 80: [num_unity_files = math.ceil(len(source_files) / sources_per_file)]. *)
Definition num_unity_files (T K M : Z) : option Z :=
  s ← sources_per_file T K M; Py.ceil_div T s.

(** Lines 93-97: the slice handed to [env.UnitySource] for group [idx]. *)
Definition unity_group {A : Type} (source_files : list A) (s idx : Z) : list A :=
  let begin := s * idx in
  let end_ := s * (idx + 1) in
  Py.slice source_files begin end_.

(** The groups in the order in which the loop of line 90 makes them;
    [None] when the arithmetic above raises. *)
Definition unity_groups {A : Type} (source_files : list A) (K M : Z)
  : option (list (list A)) :=
  s ← sources_per_file (Py.len source_files) K M;
  n ← Py.ceil_div (Py.len source_files) s;
  Some ((λ idx, unity_group source_files s idx) <$> Py.range n).

(** The effective group size in the words of the specification:
    [min(M, ceil(T / K))], floored at 1. *)
Definition spec_effective_size (T K M : Z) : Z :=
  Z.max 1 (Z.min M (- ((- T) `div` K))).

End Partition.

(** ** The data the tool handles *)

Module Data.

(** An SCons filesystem node ([File] or [Dir]); the tool only reads its
    [abspath]. *)
Record Node : Type := { abspath : string }.

(** Any other Python object (an object file node, an alias, ...): the tool
    never looks inside, so an identity is all the model keeps. *)
Inductive PyObj : Type := Obj (id : nat).

(** An element of the [source] argument, by the three [isinstance] tests of
    [_flatten_source]: a [list], a [File], a [str], or anything else. *)
Inductive SourceItem : Type :=
| SList (l : list SourceItem)
| SFile (f : Node)
| SStr (s : string)
| SOther (o : PyObj).

(** A value returned by a builder: an object, or a Python list of values. *)
Inductive PyVal : Type :=
| VObj (o : PyObj)
| VList (l : list PyVal).

(** The forwarded [*args] and [**kwargs]. *)
Record Args : Type := { args : list PyObj; kwargs : list (string * PyObj) }.

(** [cache_dir] is a string or a [Dir] node. *)
Inductive CacheDir : Type :=
| CacheStr (s : string)
| CacheNode (d : Node).

(** The four options the tool reads from the construction environment. *)
Record Env : Type := {
  UNITY_DISABLE : bool;
  UNITY_MIN_FILES : Z;
  UNITY_MAX_SOURCES : Z;
  UNITY_CACHE_DIR : CacheDir
}.

End Data.
Import Data.

(** ** [_flatten_source] *)

Module Flatten.

(** The state of the loop of [_flatten_source]: the two lists it fills. *)
Definition acc : Type := (list string * list PyObj)%type.

(** One turn of the loop of lines 108-118 on [ele].  The recursive call of
    line 110 runs the same loop on the nested list, from two empty lists,
    and lines 111-112 [extend] the current lists by its results. *)
Fixpoint flatten_ele (ele : SourceItem) (st : acc) : acc :=
  match ele with
  | SList l =>
      let more :=
        (fix loop (l : list SourceItem) (st : acc) : acc :=
           match l with
           | [] => st
           | e :: rest => loop rest (flatten_ele e st)
           end) l ([], []) in
      (st.1 ++ more.1, st.2 ++ more.2)
  | SFile f => (st.1 ++ [abspath f], st.2)
  | SStr s => (st.1 ++ [s], st.2)
  | SOther o => (st.1, st.2 ++ [o])
  end.

(** [_flatten_source(source)]: the loop over [source], from two empty
    lists. *)
Definition _flatten_source (source : list SourceItem) : acc :=
  fold_left (λ st ele, flatten_ele ele st) source ([], []).

(** *** The specification's reading of flattening *)

(** A leaf of the nested list, classified. *)
Inductive Leaf : Type :=
| Compilable (path : string)
| Passthrough (o : PyObj).

(** The leaves of an item, depth first and from left to right. *)
Fixpoint leaves (ele : SourceItem) : list Leaf :=
  match ele with
  | SList l => concat (map leaves l)
  | SFile f => [Compilable (abspath f)]
  | SStr s => [Compilable s]
  | SOther o => [Passthrough o]
  end.

Definition compilable (lf : Leaf) : option string :=
  match lf with Compilable p => Some p | Passthrough _ => None end.

Definition passthrough (lf : Leaf) : option PyObj :=
  match lf with Compilable _ => None | Passthrough o => Some o end.

(** The compilable paths, and the other nodes, of a sequence of leaves, each
    in the order of the sequence. *)
Definition sources_of (ls : list Leaf) : list string := omap compilable ls.

Definition others_of (ls : list Leaf) : list PyObj := omap passthrough ls.

End Flatten.

(** ** Effects: exceptions, the calls made outside, the files written *)

Module Effects.

(** What the tool does to the outside world, in the order it does it. *)
Inductive Event : Type :=
| EvMakedirs (path : string)
    (** [os.makedirs(path, exist_ok=True)] *)
| EvUnitySource (target : string) (source : list string)
    (** [env.UnitySource(target = ..., source = ...)] *)
| EvPrint (msg : string)
    (** [print(msg)] *)
| EvBase (target : string) (source : list SourceItem) (a : Args).
    (** [base_generator(target = ..., source = ..., *args, **kwargs)] *)

Record World : Type := {
  log : list Event;
  files : gmap string string
}.

Inductive outcome (A : Type) : Type :=
| Ret (a : A)
| Raise (e : Py.exn).
Arguments Ret {A} a.
Arguments Raise {A} e.

Definition M (A : Type) : Type := World → outcome A * World.

Definition ret {A : Type} (a : A) : M A := λ w, (Ret a, w).

Definition raise {A : Type} (e : Py.exn) : M A := λ w, (Raise e, w).

Definition bind {A B : Type} (m : M A) (k : A → M B) : M B :=
  λ w, match m w with
       | (Ret a, w') => k a w'
       | (Raise e, w') => (Raise e, w')
       end.

(** A division by zero of the arithmetic becomes the exception. *)
Definition div_result {A : Type} (o : option A) : M A :=
  match o with
  | Some a => ret a
  | None => raise Py.ZeroDivisionError
  end.

Definition emit (e : Event) : M unit :=
  λ w, (Ret tt, {| log := log w ++ [e]; files := files w |}).

(** [open(path, 'w')]: the file exists afterwards and is empty.  The handle
    is the path. *)
Definition open_w (path : string) : M string :=
  λ w, (Ret path, {| log := log w; files := <[path := EmptyString]> (files w) |}).

(** [f.write(s)]: [s] goes after what the file holds. *)
Definition write (f : string) (s : string) : M unit :=
  λ w, (Ret tt, {| log := log w; files := alter (λ c, c +:+ s) f (files w) |}).

(** [for x in l: body(x)], with the local variables the body updates
    threaded as [b]. *)
Fixpoint for_each {A B : Type} (l : list A) (body : A → B → M B) (b : B) : M B :=
  match l with
  | [] => ret b
  | x :: rest => bind (body x b) (for_each rest body)
  end.

End Effects.
Import Effects.

Notation "x <~ m ;; k" := (Effects.bind m (λ x, k))
  (at level 100, m at next level, right associativity, only parsing).
Notation "m ;;; k" := (Effects.bind m (λ _, k))
  (at level 100, right associativity, only parsing).

(** ** [_generate_unity_file] *)

Module Render.

Definition quote : string := String (ascii_of_nat 34) EmptyString.
Definition newline : string := String (ascii_of_nat 10) EmptyString.
Definition backslash : string := "\".

(** Line 132: [source_file.abspath.replace("\\", "\\\\")]. *)
Definition fpath_of (source_file : Node) : string :=
  Py.replace (abspath source_file) backslash (backslash +:+ backslash).

(** Lines 126-133.  [assert(len(target) == 1)] then [target[0]]. *)
Definition _generate_unity_file (target source : list Node) : M unit :=
  match target with
  | [t] =>
      let unity_filename := abspath t in
      f <~ open_w unity_filename ;;
      for_each source
        (λ source_file (_ : unit),
           let fpath := fpath_of source_file in
           write f ("#include " +:+ quote +:+ fpath +:+ quote +:+ newline))
        tt
  | _ => raise Py.AssertionError
  end.

(** *** The specification's reading of the file *)

(** A path with every backslash doubled. *)
Fixpoint double_backslashes (p : string) : string :=
  match p with
  | EmptyString => EmptyString
  | String c rest =>
      if Ascii.eqb c "\" then String "\" (String "\" (double_backslashes rest))
      else String c (double_backslashes rest)
  end.

(** The include line of one path. *)
Definition include_line (p : string) : string :=
  "#include " +:+ quote +:+ double_backslashes p +:+ quote +:+ newline.

(** The text of an aggregate file: the include lines of the paths, one after
    the other, and nothing else. *)
Definition file_text (paths : list string) : string :=
  foldr (λ p rest, include_line p +:+ rest) EmptyString paths.

End Render.

(** ** [_make_generator] *)

Module Generator.

(** [not cache_dir]: [None] and the empty string are false. *)
Definition cache_dir_given (cache_dir : option CacheDir) : bool :=
  match cache_dir with
  | None => false
  | Some (CacheStr s) => negb (String.eqb s EmptyString)
  | Some (CacheNode _) => true
  end.

(** Lines 82-85. *)
Definition resolve_cache_dir (env : Env) (cache_dir : option CacheDir) : string :=
  let cache_dir :=
    match cache_dir with
    | Some c => if cache_dir_given cache_dir then c else UNITY_CACHE_DIR env
    | None => UNITY_CACHE_DIR env
    end in
  match cache_dir with
  | CacheStr s => s
  | CacheNode d => abspath d
  end.

(** Line 91: [f'{cache_dir}/{target_base_name}_{idx}.cpp']. *)
Definition unity_filename (cache_dir target_base_name : string) (idx : Z) : string :=
  cache_dir +:+ "/" +:+ target_base_name +:+ "_" +:+ pretty idx +:+ ".cpp".

(** The calls of the wrapped builder among some events. *)
Definition is_base_call (e : Event) : bool :=
  match e with EvBase _ _ _ => true | _ => false end.

(** The calls of [env.UnitySource] among some events. *)
Definition is_unity_source (e : Event) : bool :=
  match e with EvUnitySource _ _ => true | _ => false end.

(** What the enabled path does to the outside world, for a group size [s]
    and a group count [n]: it makes the cache directory, registers one
    aggregate per group, reports the excluded nodes if there are any, and
    calls the wrapped builder. *)
Definition aggregates (cache_dir target : string) (n : Z) : list string :=
  (λ idx, unity_filename cache_dir (Py.basename target) idx) <$> Py.range n.

Definition unity_source_events (cache_dir target : string)
    (source_files : list string) (s n : Z) : list Event :=
  (λ idx, EvUnitySource (unity_filename cache_dir (Py.basename target) idx)
            (Partition.unity_group source_files s idx)) <$> Py.range n.

Definition builder_source (cache_dir target : string) (n : Z)
    (other_nodes : list PyObj) : list SourceItem :=
  (SStr <$> aggregates cache_dir target n) ++ (SOther <$> other_nodes).

(** Line 101. *)
Definition excluded_msg (n : Z) : string :=
  "Exluded " +:+ pretty n +:+ " node(s) from Unity build.".

Definition enabled_events (cache_dir target : string)
    (source_files : list string) (other_nodes : list PyObj) (s n : Z)
    (a : Args) : list Event :=
  [EvMakedirs cache_dir]
  ++ unity_source_events cache_dir target source_files s n
  ++ (if 0 <? Py.len other_nodes
      then [EvPrint (excluded_msg (Py.len other_nodes))]
      else [])
  ++ [EvBase target (builder_source cache_dir target n other_nodes) a].

Section generator.

(** The wrapped builder ([env.Program], ...): the call is logged and its
    result is whatever the builder returns for these arguments. *)
Variable base_generator : string → list SourceItem → Args → PyVal.

Definition call_base (target : string) (source : list SourceItem) (a : Args)
  : M PyVal :=
  emit (EvBase target source a) ;;;
  ret (base_generator target source a).

(** Lines 71-102. *)
Definition generator (env : Env) (source : list SourceItem) (target : string)
    (cache_dir : option CacheDir) (a : Args) : M PyVal :=
  if UNITY_DISABLE env then
    call_base target source a
  else
    let '(source_files, other_nodes) := Flatten._flatten_source source in
    sources_per_file <~
      div_result (Partition.sources_per_file (Py.len source_files)
                    (UNITY_MIN_FILES env) (UNITY_MAX_SOURCES env)) ;;
    num_unity_files <~
      div_result (Py.ceil_div (Py.len source_files) sources_per_file) ;;
    let cache_dir := resolve_cache_dir env cache_dir in
    emit (EvMakedirs cache_dir) ;;;
    let target_base_name := Py.basename target in
    unity_source_files <~
      for_each (Py.range num_unity_files)
        (λ idx unity_source_files,
           let unity_filename := unity_filename cache_dir target_base_name idx in
           emit (EvUnitySource unity_filename
                   (Partition.unity_group source_files sources_per_file idx)) ;;;
           ret (unity_source_files ++ [unity_filename]))
        [] ;;
    (if 0 <? Py.len other_nodes
     then emit (EvPrint (excluded_msg (Py.len other_nodes)))
     else ret tt) ;;;
    r <~ call_base target
           ((SStr <$> unity_source_files) ++ (SOther <$> other_nodes)) a ;;
    ret (VList [r]).

End generator.

End Generator.

(** ** What the properties below observe *)

Module Observe.

(** The backslashes of a path. *)
Fixpoint count_backslashes (p : string) : nat :=
  match p with
  | EmptyString => 0%nat
  | String c rest =>
      if Ascii.eqb c "\" then S (count_backslashes rest)
      else count_backslashes rest
  end.

(** Whether a string has no slash. *)
Fixpoint no_slash (p : string) : bool :=
  match p with
  | EmptyString => true
  | String c rest => negb (Ascii.eqb c "/") && no_slash rest
  end.

(** The sources an event hands to [env.UnitySource]; none for the other
    events. *)
Definition unity_event_sources (e : Event) : list string :=
  match e with
  | EvUnitySource _ source => source
  | _ => []
  end.

(** The messages printed among some events. *)
Definition printed (evs : list Event) : list string :=
  omap (λ e, match e with EvPrint msg => Some msg | _ => None end) evs.

(** The directories made among some events. *)
Definition made_dirs (evs : list Event) : list string :=
  omap (λ e, match e with EvMakedirs d => Some d | _ => None end) evs.

(** The effective [cache_dir] in the words of the docstring: the argument
    when one is given, the environment's [UNITY_CACHE_DIR] otherwise; a
    [Dir] node stands for its [abspath]. *)
Definition cache_dir_path (c : CacheDir) : string :=
  match c with CacheStr s => s | CacheNode d => abspath d end.

End Observe.

(** * Properties *)

(** ** Arithmetic of the partitioner *)

Section ceil_div_facts.

Lemma ceil_div_zero (a : Z) : Py.ceil_div a 0 = None.
Proof. reflexivity. Qed.

Lemma ceil_div_nonzero (a b : Z) :
  b ≠ 0 → Py.ceil_div a b = Some (- ((- a) `div` b)).
Proof.
  intros Hb. unfold Py.ceil_div.
  destruct (Z.eqb_spec b 0) as [->|_]; [done|reflexivity].
Qed.

(** For a positive divisor the result is the least [c] with [a <= c * b]. *)
Lemma ceil_div_pos_bounds (a b : Z) :
  0 < b → (- ((- a) `div` b) - 1) * b < a ≤ - ((- a) `div` b) * b.
Proof.
  intros Hb.
  pose proof (Z.div_mod (- a) b ltac:(lia)) as Hdm.
  pose proof (Z.mod_pos_bound (- a) b Hb) as Hm.
  nia.
Qed.

Lemma ceil_div_pos_unique (a b c : Z) :
  0 < b → (c - 1) * b < a ≤ c * b → - ((- a) `div` b) = c.
Proof.
  intros Hb Hc. pose proof (ceil_div_pos_bounds a b Hb). nia.
Qed.

(** For a negative divisor and a non-negative dividend it is at most 0. *)
Lemma ceil_div_neg_nonpos (a b : Z) :
  0 ≤ a → b < 0 → - ((- a) `div` b) ≤ 0.
Proof.
  intros Ha Hb.
  pose proof (Z.div_mod (- a) b ltac:(lia)) as Hdm.
  pose proof (Z.mod_neg_bound (- a) b Hb) as Hm.
  nia.
Qed.

End ceil_div_facts.

Section size_facts.

Lemma sources_per_file_nonzero (T K M : Z) :
  K ≠ 0 →
  Partition.sources_per_file T K M
  = Some (Z.min (Z.max 1 (- ((- T) `div` K))) M).
Proof.
  intros HK. unfold Partition.sources_per_file, Partition.max_sources_per_file.
  rewrite ceil_div_nonzero by done. reflexivity.
Qed.

Lemma sources_per_file_zero (T M : Z) :
  Partition.sources_per_file T 0 M = None.
Proof. reflexivity. Qed.

(** With a size cap of at least 1, the code's [min(max(1, c), M)] is the
    specification's [max(1, min(M, c))]. *)
Lemma sources_per_file_spec (T K M : Z) :
  K ≠ 0 → 1 ≤ M →
  Partition.sources_per_file T K M = Some (Partition.spec_effective_size T K M)
  ∧ 1 ≤ Partition.spec_effective_size T K M ≤ M.
Proof.
  intros HK HM. rewrite sources_per_file_nonzero by done.
  unfold Partition.spec_effective_size. split; [f_equal|]; lia.
Qed.

(** The number of groups, for a size [s >= 1]. *)
Lemma group_count_bounds (T s : Z) :
  0 ≤ T → 1 ≤ s →
  ∃ n, Py.ceil_div T s = Some n ∧ 0 ≤ n ∧ (n - 1) * s < T ≤ n * s.
Proof.
  intros HT Hs. exists (- ((- T) `div` s)).
  rewrite ceil_div_nonzero by lia.
  pose proof (ceil_div_pos_bounds T s ltac:(lia)). split; [done|]. nia.
Qed.

End size_facts.

(** ** Slices and chunks *)

Section chunk_facts.

Context {A : Type}.
Implicit Types (l : list A) (s n k i : nat).

Lemma range_seq (n : Z) : Py.range n = Z.of_nat <$> seq 0 (Z.to_nat n).
Proof.
  unfold Py.range, seqZ. apply list_fmap_ext. intros _ i _. lia.
Qed.

(** The slice of group [idx], on natural numbers. *)
Lemma unity_group_take_drop l (s idx : Z) :
  0 ≤ s → 0 ≤ idx →
  Partition.unity_group l s idx
  = take (Z.to_nat s) (drop (Z.to_nat idx * Z.to_nat s) l).
Proof.
  intros Hs Hidx. unfold Partition.unity_group, Py.slice, Py.slice_index.
  assert (0 ≤ s * idx) as H0 by nia.
  assert (0 ≤ s * (idx + 1)) as H1 by nia.
  destruct (Z.ltb_spec (s * idx) 0) as [?|_]; [lia|].
  destruct (Z.ltb_spec (s * (idx + 1)) 0) as [?|_]; [lia|].
  destruct (Z_le_gt_dec (s * idx) (Z.of_nat (length l))) as [Hle|Hgt].
  - replace (Z.to_nat (Z.min (s * idx) (Z.of_nat (length l))))
      with (Z.to_nat idx * Z.to_nat s)%nat by nia.
    destruct (Z_le_gt_dec (s * (idx + 1)) (Z.of_nat (length l))) as [Hle'|Hgt'].
    + f_equal. lia.
    + rewrite !take_ge; [done| |]; rewrite length_drop; nia.
  - rewrite (drop_ge l (Z.to_nat idx * Z.to_nat s)) by nia.
    rewrite take_nil.
    replace (Z.to_nat (Z.min (s * (idx + 1)) (Z.of_nat (length l))
                       - Z.min (s * idx) (Z.of_nat (length l)))) with 0%nat by lia.
    reflexivity.
Qed.

(** [n] consecutive chunks of [s] elements, from chunk [k] on, are the next
    [n * s] elements. *)
Lemma concat_chunks l s n k :
  concat ((λ i, take s (drop (i * s) l)) <$> seq k n)
  = take (n * s) (drop (k * s) l).
Proof.
  revert k. induction n as [|n IH]; intros k; simpl.
  - reflexivity.
  - rewrite IH. replace (S k * s)%nat with (k * s + s)%nat by lia.
    rewrite <- drop_drop. apply take_take_drop.
Qed.

Lemma length_chunk l s i :
  length (take s (drop (i * s) l)) = (s `min` (length l - i * s))%nat.
Proof. rewrite length_take, length_drop. reflexivity. Qed.

End chunk_facts.

(** ** The groups *)

Section group_facts.

Context {A : Type}.
Implicit Types (l : list A).

(** The groups are the successive chunks of [s] sources. *)
Lemma unity_groups_chunks l (K M s n : Z) :
  Partition.sources_per_file (Py.len l) K M = Some s →
  Py.ceil_div (Py.len l) s = Some n →
  1 ≤ s →
  Partition.unity_groups l K M
  = Some ((λ i, take (Z.to_nat s) (drop (i * Z.to_nat s) l))
            <$> seq 0 (Z.to_nat n)).
Proof.
  intros Hs Hn Hs1. unfold Partition.unity_groups.
  rewrite Hs. simpl. rewrite Hn. simpl. f_equal.
  rewrite range_seq, <- list_fmap_compose.
  apply list_fmap_ext. intros _ i _. simpl.
  rewrite unity_group_take_drop by lia. by rewrite Nat2Z.id.
Qed.

(** What a valid configuration gives: the size, the count, the chunks. *)
Lemma unity_groups_valid l (K M : Z) :
  1 ≤ M → 1 ≤ K →
  ∃ s n : nat,
    Partition.sources_per_file (Py.len l) K M = Some (Z.of_nat s)
    ∧ Z.of_nat s = Partition.spec_effective_size (Py.len l) K M
    ∧ Py.ceil_div (Py.len l) (Z.of_nat s) = Some (Z.of_nat n)
    ∧ (1 ≤ s)%nat
    ∧ (Z.of_nat n - 1) * Z.of_nat s < Z.of_nat (length l)
    ∧ Z.of_nat (length l) ≤ Z.of_nat n * Z.of_nat s
    ∧ Partition.unity_groups l K M
      = Some ((λ i, take s (drop (i * s) l)) <$> seq 0 n).
Proof.
  intros HM HK.
  destruct (sources_per_file_spec (Py.len l) K M) as [Hs Hs1]; [lia|lia|].
  set (s := Partition.spec_effective_size (Py.len l) K M) in *.
  destruct (group_count_bounds (Py.len l) s) as (n & Hn & Hn0 & Hb);
    [unfold Py.len; lia|lia|].
  exists (Z.to_nat s), (Z.to_nat n).
  rewrite !Z2Nat.id by lia. unfold Py.len in Hb.
  split_and!; try done; try nia.
  rewrite (unity_groups_chunks l K M s n); [done..|lia].
Qed.

End group_facts.

(** C1.  For sources of any length [T >= 0] and a configuration with
    [M >= 1] and [K >= 1], the partitioner returns groups whose
    concatenation, in the order of their indices, is the source sequence
    itself (so the groups are contiguous, with no gap, overlap or
    reordering), whose sizes sum to [T], and none of which is empty (for
    [T = 0] there is no group at all). *)
Theorem C1_partition_covers_sources {A : Type} (l : list A) (K M : Z) :
  1 ≤ M → 1 ≤ K →
  ∃ groups : list (list A),
    Partition.unity_groups l K M = Some groups
    ∧ concat groups = l
    ∧ list_sum (length <$> groups) = length l
    ∧ ((0 < length l)%nat → Forall (λ g, g ≠ []) groups)
    ∧ (length l = 0%nat → groups = []).
Proof.
  intros HM HK.
  destruct (unity_groups_valid l K M HM HK)
    as (s & n & _ & _ & _ & Hs1 & Hlo & Hhi & Hg).
  eexists. split; [exact Hg|].
  assert (concat ((λ i, take s (drop (i * s) l)) <$> seq 0 n) = l) as Hcat.
  { rewrite concat_chunks. simpl. rewrite drop_0, take_ge; [done|nia]. }
  split_and!.
  - exact Hcat.
  - rewrite <- length_concat. by rewrite Hcat.
  - intros HT. apply Forall_fmap, Forall_forall. intros i Hi%elem_of_seq. simpl.
    intros Hnil. apply (f_equal length) in Hnil.
    rewrite length_chunk in Hnil. simpl in Hnil. nia.
  - intros HT. destruct n; [done|]. nia.
Qed.

Lemma C1_partition_covers_sources_witness :
  1 ≤ 15 ∧ 1 ≤ 4 ∧
  ∃ groups : list (list nat),
    Partition.unity_groups (seq 0 10) 4 15 = Some groups
    ∧ concat groups = seq 0 10.
Proof.
  split; [lia|]. split; [lia|].
  destruct (C1_partition_covers_sources (seq 0 10) 4 15) as (g & Hg & Hc & _);
    [lia|lia|].
  exists g. split; [exact Hg|exact Hc].
Defined.

Section size_of_groups.

Context {A : Type}.
Implicit Types (l : list A).

(** The sizes of the chunks: [s] sources, or what is left. *)
Lemma length_chunks l (s n : nat) :
  length <$> ((λ i, take s (drop (i * s) l)) <$> seq 0 n)
  = (λ i, s `min` (length l - i * s))%nat <$> seq 0 n.
Proof.
  rewrite <- list_fmap_compose. apply list_fmap_ext.
  intros _ i _. simpl. apply length_chunk.
Qed.

Lemma lookup_chunks l (s n i : nat) g :
  ((λ i, take s (drop (i * s) l)) <$> seq 0 n) !! i = Some g →
  (i < n)%nat ∧ g = take s (drop (i * s) l).
Proof.
  rewrite list_lookup_fmap. intros H.
  destruct (seq 0 n !! i) as [j|] eqn:Hj; [|done].
  apply lookup_seq in Hj as [-> Hi]. simpl in H. by inversion H.
Qed.

End size_of_groups.

(** C2.  For [T >= 0], [M >= 1] and [K >= 1] the group size the code
    computes is the specification's [min(M, ceil(T / K))] floored at 1, the
    number of groups is [ceil(T / size)] (so 0 for [T = 0]), every group
    but the last has [size] sources and the last has between 1 and [size];
    100 sources with [M = 15], [K = 2] give sizes 15,15,15,15,15,15,10 and
    10 sources with [M = 15], [K = 4] give sizes 3,3,3,1. *)
Theorem C2_group_size_and_count {A : Type} (l : list A) (K M : Z) :
  1 ≤ M → 1 ≤ K →
  let T := Py.len l in
  let size := Partition.spec_effective_size T K M in
  Partition.sources_per_file T K M = Some size
  ∧ ∃ (n : Z) (groups : list (list A)),
      Partition.num_unity_files T K M = Some n
      ∧ Py.ceil_div T size = Some n
      ∧ (n - 1) * size < T ≤ n * size
      ∧ (T = 0 → n = 0)
      ∧ Partition.unity_groups l K M = Some groups
      ∧ Py.len groups = n
      ∧ (∀ (i : nat) (g : list A), groups !! i = Some g →
           (Z.of_nat i + 1 < n → Py.len g = size)
           ∧ (Z.of_nat i + 1 = n →
                0 < Py.len g ≤ size ∧ Py.len g = T - (n - 1) * size))
      ∧ (T = 100 → M = 15 → K = 2 →
           length <$> groups = [15; 15; 15; 15; 15; 15; 10]%nat)
      ∧ (T = 10 → M = 15 → K = 4 →
           length <$> groups = [3; 3; 3; 1]%nat).
Proof.
  intros HM HK T size.
  destruct (unity_groups_valid l K M HM HK)
    as (s & n & Hs & Hsz & Hn & Hs1 & Hlo & Hhi & Hg).
  fold T in Hs, Hsz, Hn. fold size in Hsz. rewrite Hsz in Hs, Hn.
  split; [exact Hs|].
  exists (Z.of_nat n), ((λ i, take s (drop (i * s) l)) <$> seq 0 n).
  assert (T = Z.of_nat (length l)) as HT by reflexivity.
  clearbody size. clearbody T. subst size T.
  split_and!.
  - unfold Partition.num_unity_files. rewrite Hs. exact Hn.
  - exact Hn.
  - nia.
  - nia.
  - intros HT0. nia.
  - exact Hg.
  - unfold Py.len. by rewrite length_fmap, length_seq.
  - intros i g [Hi ->]%lookup_chunks. unfold Py.len.
    rewrite length_chunk. split; intros Hin; nia.
  - intros HT100 -> ->. rewrite length_chunks.
    assert (length l = 100%nat) as -> by lia.
    rewrite HT100 in Hs, Hn.
    change (Partition.sources_per_file 100 2 15) with (Some 15) in Hs.
    assert (s = 15%nat) as -> by (injection Hs; lia).
    change (Py.ceil_div 100 (Z.of_nat 15)) with (Some 7) in Hn.
    assert (n = 7%nat) as -> by (injection Hn; lia).
    reflexivity.
  - intros HT10 -> ->. rewrite length_chunks.
    assert (length l = 10%nat) as -> by lia.
    rewrite HT10 in Hs, Hn.
    change (Partition.sources_per_file 10 4 15) with (Some 3) in Hs.
    assert (s = 3%nat) as -> by (injection Hs; lia).
    change (Py.ceil_div 10 (Z.of_nat 3)) with (Some 4) in Hn.
    assert (n = 4%nat) as -> by (injection Hn; lia).
    reflexivity.
Qed.

Lemma C2_group_size_and_count_witness :
  1 ≤ 15 ∧ 1 ≤ 4 ∧
  Partition.sources_per_file 10 4 15 = Some 3
  ∧ ∃ groups : list (list nat),
      Partition.unity_groups (seq 0 10) 4 15 = Some groups
      ∧ length <$> groups = [3; 3; 3; 1]%nat.
Proof.
  split; [lia|]. split; [lia|].
  destruct (C2_group_size_and_count (seq 0 10) 4 15)
    as (Hs & n & g & _ & _ & _ & _ & Hg & _ & _ & _ & Hex); [lia|lia|].
  split; [exact Hs|].
  exists g. split; [exact Hg|]. apply Hex; reflexivity.
Defined.

(** C3, as the claim has it, fails: 10 sources with [M = 15 >= 10] and
    [K = 4] make four groups, not one. *)
Lemma C3_one_group_counterexample :
  (1 ≤ length (seq 0 10))%nat ∧ Py.len (seq 0 10) ≤ 15 ∧ 1 ≤ 15 ∧ 1 ≤ 4
  ∧ Partition.unity_groups (seq 0 10) 4 15
    = Some [[0; 1; 2]; [3; 4; 5]; [6; 7; 8]; [9]]%nat.
Proof. vm_compute. split_and!; (done || lia || congruence). Qed.

(** C3, amended.  For [T >= 1] sources, [K >= 1] and [M >= T], the
    partitioner returns groups of [ceil(T / K)] sources (the last one may
    have fewer), [ceil(T / ceil(T / K))] of them, which together are the
    sources; there is exactly one group, of all the sources, exactly when
    [K = 1] or [T = 1]; otherwise the group size [ceil(T / K)] is below [T]
    and there are at least two groups. *)
Theorem C3_one_group_iff {A : Type} (l : list A) (K M : Z) :
  (1 ≤ length l)%nat → 1 ≤ K → Py.len l ≤ M →
  let size := - ((- Py.len l) `div` K) in
  ∃ groups : list (list A),
    Partition.unity_groups l K M = Some groups
    ∧ Partition.sources_per_file (Py.len l) K M = Some size
    ∧ Py.ceil_div (Py.len l) size = Some (Py.len groups)
    ∧ concat groups = l
    ∧ Forall (λ g, 1 ≤ Py.len g ≤ size) groups
    ∧ (groups = [l] ↔ (K = 1 ∨ length l = 1%nat))
    ∧ (Partition.unity_groups l K M = Some [l]
       ↔ (K = 1 ∨ length l = 1%nat))
    ∧ (¬ (K = 1 ∨ length l = 1%nat) →
       size < Py.len l ∧ (2 ≤ length groups)%nat).
Proof.
  intros HT HK HM size. unfold Py.len in HM.
  destruct (unity_groups_valid l K M ltac:(lia) HK)
    as (s & n & Hs & Hsz & Hn & Hs1 & Hlo & Hhi & Hg).
  unfold Partition.spec_effective_size, Py.len in Hsz.
  pose proof (ceil_div_pos_bounds (Z.of_nat (length l)) K ltac:(lia)) as Hc.
  assert (Z.of_nat s = size) as Hsize by (subst size; unfold Py.len; nia).
  rewrite Hsize in Hs, Hn. subst size. unfold Py.len in *.
  set (c := - ((- Z.of_nat (length l)) `div` K)) in *.
  assert (groups_one :
            (λ i, take s (drop (i * s) l)) <$> seq 0 n = [l]
            ↔ (K = 1 ∨ length l = 1%nat)).
  { split.
    - intros Heq.
      assert (n = 1%nat) as ->.
      { apply (f_equal length) in Heq.
        rewrite length_fmap, length_seq in Heq. exact Heq. }
      destruct (decide (length l = 1%nat)) as [|Hne]; [by right|left]. nia.
    - intros Hor.
      assert (s = length l) as -> by (destruct Hor as [->|Hone]; nia).
      assert (n = 1%nat) as -> by nia.
      simpl. by rewrite drop_0, take_ge. }
  exists ((λ i, take s (drop (i * s) l)) <$> seq 0 n).
  split_and!.
  - exact Hg.
  - exact Hs.
  - rewrite length_fmap, length_seq. exact Hn.
  - rewrite concat_chunks. simpl. rewrite drop_0, take_ge; [done|nia].
  - apply Forall_fmap, Forall_forall. intros i Hi%elem_of_seq. simpl.
    rewrite length_chunk. nia.
  - exact groups_one.
  - rewrite Hg. rewrite <- groups_one. split; [by intros [= ->]|by intros ->].
  - intros Hnot.
    assert (2 ≤ K) by lia. assert (2 ≤ Z.of_nat (length l)) by lia.
    assert (c < Z.of_nat (length l)) as Hlt by nia.
    split; [exact Hlt|].
    rewrite length_fmap, length_seq. nia.
Qed.

Lemma C3_one_group_iff_witness :
  (1 ≤ length (seq 0 10))%nat ∧ 1 ≤ 4 ∧ Py.len (seq 0 10) ≤ 15
  ∧ ∃ groups : list (list nat),
      Partition.unity_groups (seq 0 10) 4 15 = Some groups
      ∧ Partition.sources_per_file 10 4 15 = Some 3
      ∧ concat groups = seq 0 10
      ∧ (2 ≤ length groups)%nat.
Proof.
  split; [simpl; lia|]. split; [lia|]. split; [vm_compute; congruence|].
  destruct (C3_one_group_iff (seq 0 10) 4 15)
    as (g & Hg & Hs & _ & Hcat & _ & _ & _ & Hmany);
    [simpl; lia|lia|vm_compute; congruence|].
  exists g. split; [exact Hg|]. split; [exact Hs|]. split; [exact Hcat|].
  apply Hmany. intros [HK|HT]; [lia|simpl in HT; lia].
Defined.

(** C4, as the claim has it, fails: with [K = 0] the computation raises
    [ZeroDivisionError], and with [M <= 0] its result is [M], below 1. *)
Lemma C4_effective_size_counterexample :
  Partition.sources_per_file 5 0 15 = None
  ∧ Partition.sources_per_file 5 2 0 = Some 0
  ∧ Partition.sources_per_file 5 2 (-3) = Some (-3).
Proof. split_and!; reflexivity. Qed.

(** What the code does outside the claim's amended range. *)
Lemma sources_per_file_bad_cap (T K M : Z) :
  K ≠ 0 → M ≤ 0 → Partition.sources_per_file T K M = Some M.
Proof.
  intros HK HM. rewrite sources_per_file_nonzero by done. f_equal. lia.
Qed.

(** C4, amended.  For every [T >= 0], every non-zero [K] (negative ones
    included) and every [M >= 1], the computation of the effective group
    size raises nothing and its result is at least 1. *)
Theorem C4_effective_size_total (T K M : Z) :
  0 ≤ T → K ≠ 0 → 1 ≤ M →
  ∃ s, Partition.sources_per_file T K M = Some s ∧ 1 ≤ s.
Proof.
  intros _ HK HM.
  destruct (sources_per_file_spec T K M HK HM) as [Hs Hb].
  eexists. split; [exact Hs|lia].
Qed.

Lemma C4_effective_size_total_witness :
  0 ≤ 10 ∧ -3 ≠ 0 ∧ 1 ≤ 15
  ∧ ∃ s, Partition.sources_per_file 10 (-3) 15 = Some s ∧ 1 ≤ s.
Proof.
  split; [lia|]. split; [lia|]. split; [lia|].
  apply (C4_effective_size_total 10 (-3) 15); lia.
Defined.

(** ** Flattening *)

Section flatten_facts.

(** Induction on nested source lists. *)
Lemma SourceItem_nested_ind (P : SourceItem → Prop) :
  (∀ l, Forall P l → P (SList l)) →
  (∀ f, P (SFile f)) →
  (∀ s, P (SStr s)) →
  (∀ o, P (SOther o)) →
  ∀ ele, P ele.
Proof.
  intros HList HFile HStr HOther.
  fix IH 1. intros [l|f|s|o]; [|apply HFile|apply HStr|apply HOther].
  apply HList. induction l as [|e l IHl]; constructor; [apply IH|exact IHl].
Qed.

(** The loop inside [flatten_ele] is the loop of [_flatten_source]. *)
Lemma flatten_ele_list (l : list SourceItem) (st : Flatten.acc) :
  Flatten.flatten_ele (SList l) st
  = (st.1 ++ (Flatten._flatten_source l).1,
     st.2 ++ (Flatten._flatten_source l).2).
Proof.
  unfold Flatten._flatten_source. simpl.
  generalize (@nil string, @nil PyObj). intros st0.
  do 2 f_equal; revert st0; induction l as [|e l IHl]; intros st0; simpl;
    auto.
Qed.

Lemma fold_flatten_spec (l : list SourceItem) :
  Forall (λ ele, ∀ st, Flatten.flatten_ele ele st
                       = (st.1 ++ Flatten.sources_of (Flatten.leaves ele),
                          st.2 ++ Flatten.others_of (Flatten.leaves ele))) l →
  ∀ st, fold_left (λ st ele, Flatten.flatten_ele ele st) l st
        = (st.1 ++ Flatten.sources_of (concat (map Flatten.leaves l)),
           st.2 ++ Flatten.others_of (concat (map Flatten.leaves l))).
Proof.
  unfold Flatten.sources_of, Flatten.others_of.
  induction 1 as [|e l He _ IHl]; intros [sf on]; simpl.
  - by rewrite !app_nil_r.
  - rewrite He, IHl. simpl. rewrite !omap_app, !app_assoc. reflexivity.
Qed.

Lemma flatten_ele_spec (ele : SourceItem) (st : Flatten.acc) :
  Flatten.flatten_ele ele st
  = (st.1 ++ Flatten.sources_of (Flatten.leaves ele),
     st.2 ++ Flatten.others_of (Flatten.leaves ele)).
Proof.
  revert st. induction ele as [l IHl|f|s|o] using SourceItem_nested_ind;
    intros st.
  - rewrite flatten_ele_list. unfold Flatten._flatten_source.
    rewrite (fold_flatten_spec l IHl). reflexivity.
  - simpl. by rewrite app_nil_r.
  - simpl. by rewrite app_nil_r.
  - simpl. by rewrite app_nil_r.
Qed.

Lemma flatten_source_spec (source : list SourceItem) :
  Flatten._flatten_source source
  = (Flatten.sources_of (Flatten.leaves (SList source)),
     Flatten.others_of (Flatten.leaves (SList source))).
Proof.
  unfold Flatten._flatten_source. rewrite fold_flatten_spec.
  - reflexivity.
  - apply Forall_forall. intros ele _ st. apply flatten_ele_spec.
Qed.

End flatten_facts.

(** C6.  [_flatten_source] returns, in their order in a depth-first,
    left-to-right walk of the nested list, the path of every compilable
    leaf (the [abspath] of a [File], a string itself) and, apart, every
    other leaf; [[a, b], c, [d, [e]]] with compilable leaves gives
    [a, b, c, d, e]. *)
Theorem C6_flatten_depth_first :
  (∀ source : list SourceItem,
     Flatten._flatten_source source
     = (Flatten.sources_of (Flatten.leaves (SList source)),
        Flatten.others_of (Flatten.leaves (SList source))))
  ∧ (∀ a b c d e : string,
       Flatten._flatten_source
         [SList [SStr a; SStr b]; SStr c; SList [SStr d; SList [SStr e]]]
       = ([a; b; c; d; e], []))
  ∧ (∀ a b c d e : Node,
       Flatten._flatten_source
         [SList [SFile a; SFile b]; SFile c; SList [SFile d; SList [SFile e]]]
       = ([abspath a; abspath b; abspath c; abspath d; abspath e], []))
  ∧ (∀ (a : string) (b : Node) (o p : PyObj) (c : string),
       Flatten._flatten_source
         [SList [SStr a; SOther o]; SFile b; SList [SOther p; SList [SStr c]]]
       = ([a; abspath b; c], [o; p])).
Proof.
  split_and!.
  - apply flatten_source_spec.
  - reflexivity.
  - reflexivity.
  - reflexivity.
Qed.

(** ** Rendering *)

Section render_facts.

Lemma append_cons (c : ascii) (s t : string) :
  String c s +:+ t = String c (s +:+ t).
Proof. reflexivity. Qed.

Lemma append_nil_r (s : string) : s +:+ EmptyString = s.
Proof. induction s as [|c s IH]; [done|]. by rewrite append_cons, IH. Qed.

Lemma append_assoc (s t u : string) : (s +:+ t) +:+ u = s +:+ (t +:+ u).
Proof. induction s as [|c s IH]; [done|]. by rewrite !append_cons, IH. Qed.

(** [str.replace] of one backslash by two doubles every backslash. *)
Lemma replace_backslash (p : string) :
  Py.replace p Render.backslash (Render.backslash +:+ Render.backslash)
  = Render.double_backslashes p.
Proof.
  unfold Py.replace. induction p as [|c p IH]; [reflexivity|].
  cbn [Py.replace_from Render.double_backslashes].
  unfold Render.backslash at 1. cbn [String.prefix].
  destruct (ascii_dec "\" c) as [<-|Hne].
  - cbn. replace (String.prefix EmptyString p) with true by (by destruct p).
    rewrite IH. reflexivity.
  - rewrite (proj2 (Ascii.eqb_neq c "\")) by congruence.
    f_equal. exact IH.
Qed.

(** The loop of lines 131-133 appends the text of the group. *)
Lemma write_loop (source : list Node) (f c0 : string) (lg : list Event)
    (m : gmap string string) :
  for_each source
    (λ source_file (_ : unit),
       write f ("#include " +:+ Render.quote +:+ Render.fpath_of source_file
                +:+ Render.quote +:+ Render.newline))
    tt {| log := lg; files := <[f := c0]> m |}
  = (Ret tt,
     {| log := lg;
        files := <[f := c0 +:+ Render.file_text (abspath <$> source)]> m |}).
Proof.
  revert c0. induction source as [|n source IH]; intros c0.
  - cbn. by rewrite append_nil_r.
  - rewrite fmap_cons. cbn [for_each Render.file_text foldr].
    unfold bind, write at 1. cbn [files log].
    rewrite alter_insert_eq, IH. do 3 f_equal.
    rewrite append_assoc. f_equal.
    unfold Render.include_line, Render.fpath_of.
    by rewrite replace_backslash.
Qed.

(** What one run of the renderer does. *)
Lemma generate_unity_file_run (t : Node) (source : list Node) (w : World) :
  Render._generate_unity_file [t] source w
  = (Ret tt,
     {| log := log w;
        files := <[abspath t := Render.file_text (abspath <$> source)]> (files w) |}).
Proof.
  unfold Render._generate_unity_file, bind, open_w.
  rewrite write_loop. reflexivity.
Qed.

Lemma file_text_repeat (p : string) (n : nat) :
  Render.file_text (repeat p n)
  = foldr append EmptyString (repeat (Render.include_line p) n).
Proof. induction n as [|n IH]; simpl; [done|by rewrite <- IH]. Qed.

End render_facts.

(** C5.  The renderer leaves at the destination exactly the include lines
    of the source paths, one per path and in their order: each line is
    [#include], a space, the path between double quotes with every backslash
    doubled, and a newline; nothing precedes or follows them, and a path
    given [n] times has its line [n] times. *)
Theorem C5_render_include_lines :
  (∀ (t : Node) (source : list Node) (w : World),
     Render._generate_unity_file [t] source w
     = (Ret tt,
        {| log := log w;
           files := <[abspath t :=
                        foldr append EmptyString
                          ((λ n, "#include " +:+ Render.quote
                                 +:+ Render.double_backslashes (abspath n)
                                 +:+ Render.quote +:+ Render.newline)
                             <$> source)]> (files w) |}))
  ∧ (∀ (t p : Node) (n : nat) (w : World),
       files (Render._generate_unity_file [t] (repeat p n) w).2 !! abspath t
       = Some (foldr append EmptyString
                 (repeat (Render.include_line (abspath p)) n)))
  ∧ (∀ (t : Node) (w : World),
       files (Render._generate_unity_file [t]
                [ {| abspath := "C:\src\x.cpp" |}; {| abspath := "y.cpp" |};
                  {| abspath := "y.cpp" |} ] w).2 !! abspath t
       = Some ("#include " +:+ Render.quote +:+ "C:\\src\\x.cpp"
               +:+ Render.quote +:+ Render.newline
               +:+ "#include " +:+ Render.quote +:+ "y.cpp"
               +:+ Render.quote +:+ Render.newline
               +:+ "#include " +:+ Render.quote +:+ "y.cpp"
               +:+ Render.quote +:+ Render.newline)).
Proof.
  split_and!.
  - intros t source w. rewrite generate_unity_file_run. do 3 f_equal.
    induction source as [|n source IH]; [done|].
    rewrite !fmap_cons. cbn [Render.file_text foldr].
    f_equal. exact IH.
  - intros t p n w. rewrite generate_unity_file_run. simpl.
    rewrite lookup_insert_eq. f_equal.
    replace (abspath <$> repeat p n) with (repeat (abspath p) n).
    + apply file_text_repeat.
    + induction n as [|n IH]; [done|]. cbn [repeat]. by rewrite fmap_cons, IH.
  - intros t w. rewrite generate_unity_file_run. simpl.
    by rewrite lookup_insert_eq.
Qed.

(** C9.  Rendering a group to a destination a second time leaves the files
    as the first rendering left them, and what the destination holds
    afterwards does not depend on what it held before: the renderer
    overwrites, and checks nothing. *)
Theorem C9_render_idempotent :
  (∀ (t : Node) (source : list Node) (w : World),
     let once := Render._generate_unity_file [t] source w in
     let twice := Render._generate_unity_file [t] source once.2 in
     once.1 = Ret tt ∧ twice.1 = Ret tt
     ∧ files twice.2 = files once.2
     ∧ files twice.2 !! abspath t = files once.2 !! abspath t)
  ∧ (∀ (t : Node) (source : list Node) (w w' : World),
       files (Render._generate_unity_file [t] source w).2 !! abspath t
       = files (Render._generate_unity_file [t] source w').2 !! abspath t)
  ∧ (∀ (t : Node) (source : list Node) (w : World) (old : string),
       files (Render._generate_unity_file [t] source
                {| log := log w; files := <[abspath t := old]> (files w) |}).2
       = files (Render._generate_unity_file [t] source w).2).
Proof.
  split_and!.
  - intros t source w once twice. subst once twice.
    rewrite !generate_unity_file_run. simpl.
    rewrite insert_insert_eq. done.
  - intros t source w w'. rewrite !generate_unity_file_run. simpl.
    by rewrite !lookup_insert_eq.
  - intros t source w old. rewrite !generate_unity_file_run. simpl.
    by rewrite insert_insert_eq.
Qed.

(** ** The generator *)

Section generator_facts.

Variable base_generator : string → list SourceItem → Args → PyVal.

Lemma world_log_nil (w : World) :
  {| log := log w ++ []; files := files w |} = w.
Proof. destruct w. simpl. by rewrite app_nil_r. Qed.

Lemma call_base_run (target : string) (source : list SourceItem) (a : Args)
    (w : World) :
  Generator.call_base base_generator target source a w
  = (Ret (base_generator target source a),
     {| log := log w ++ [EvBase target source a]; files := files w |}).
Proof. reflexivity. Qed.

(** The loop of lines 90-98. *)
Lemma unity_loop_run (cache_dir tb : string) (source_files : list string)
    (s : Z) (l : list Z) (acc : list string) (w : World) :
  for_each l
    (λ idx unity_source_files,
       emit (EvUnitySource (Generator.unity_filename cache_dir tb idx)
               (Partition.unity_group source_files s idx)) ;;;
       ret (unity_source_files ++ [Generator.unity_filename cache_dir tb idx]))
    acc w
  = (Ret (acc ++ (Generator.unity_filename cache_dir tb <$> l)),
     {| log := log w
               ++ ((λ idx, EvUnitySource (Generator.unity_filename cache_dir tb idx)
                             (Partition.unity_group source_files s idx)) <$> l);
        files := files w |}).
Proof.
  revert acc w. induction l as [|idx l IH]; intros acc w.
  - cbn. by rewrite app_nil_r, world_log_nil.
  - cbn [for_each]. unfold bind at 1. unfold bind at 1. unfold emit, ret at 1.
    rewrite IH. cbn [log files]. rewrite !fmap_cons, <- !app_assoc.
    reflexivity.
Qed.

(** The disabled path. *)
Lemma generator_disabled_run (env : Env) (source : list SourceItem)
    (target : string) (cache_dir : option CacheDir) (a : Args) (w : World) :
  UNITY_DISABLE env = true →
  Generator.generator base_generator env source target cache_dir a w
  = (Ret (base_generator target source a),
     {| log := log w ++ [EvBase target source a]; files := files w |}).
Proof. intros Hd. unfold Generator.generator. rewrite Hd. reflexivity. Qed.

(** The enabled path, when the arithmetic raises nothing. *)
Lemma generator_enabled_run (env : Env) (source : list SourceItem)
    (target : string) (cache_dir : option CacheDir) (a : Args) (w : World)
    (s n : Z) :
  UNITY_DISABLE env = false →
  Partition.sources_per_file (Py.len (Flatten._flatten_source source).1)
    (UNITY_MIN_FILES env) (UNITY_MAX_SOURCES env) = Some s →
  Py.ceil_div (Py.len (Flatten._flatten_source source).1) s = Some n →
  let source_files := (Flatten._flatten_source source).1 in
  let other_nodes := (Flatten._flatten_source source).2 in
  let cd := Generator.resolve_cache_dir env cache_dir in
  let src := Generator.builder_source cd target n other_nodes in
  Generator.generator base_generator env source target cache_dir a w
  = (Ret (VList [base_generator target src a]),
     {| log := log w
               ++ Generator.enabled_events cd target source_files other_nodes
                    s n a;
        files := files w |}).
Proof.
  intros Hd Hs Hn source_files other_nodes cd src.
  subst source_files other_nodes cd src. unfold Generator.enabled_events.
  unfold Generator.generator. rewrite Hd.
  destruct (Flatten._flatten_source source) as [sf on] eqn:Hfl.
  cbn [fst snd] in *.
  rewrite Hs. cbn [div_result]. unfold bind at 1, ret at 1.
  rewrite Hn. cbn [div_result]. unfold bind at 1, ret at 1.
  unfold bind at 1, emit at 1.
  unfold bind at 1. rewrite unity_loop_run. cbn [log files].
  unfold Generator.builder_source, Generator.aggregates,
    Generator.unity_source_events.
  destruct (0 <? Py.len on).
  - unfold bind at 1, emit at 1. cbn [log files].
    unfold bind at 1. rewrite call_base_run. cbn [log files].
    unfold ret. rewrite <- !app_assoc. reflexivity.
  - unfold bind at 1, ret at 1.
    unfold bind at 1. rewrite call_base_run. cbn [log files].
    unfold ret. rewrite <- !app_assoc. reflexivity.
Qed.

(** The enabled path raises when the arithmetic does, before it has done
    anything. *)
Lemma generator_enabled_raises (env : Env) (source : list SourceItem)
    (target : string) (cache_dir : option CacheDir) (a : Args) (w : World) :
  UNITY_DISABLE env = false →
  Partition.num_unity_files (Py.len (Flatten._flatten_source source).1)
    (UNITY_MIN_FILES env) (UNITY_MAX_SOURCES env) = None →
  Generator.generator base_generator env source target cache_dir a w
  = (Raise Py.ZeroDivisionError, w).
Proof.
  intros Hd Hn. unfold Generator.generator. rewrite Hd.
  destruct (Flatten._flatten_source source) as [sf on] eqn:Hfl.
  cbn [fst snd] in *. unfold Partition.num_unity_files in Hn.
  destruct (Partition.sources_per_file _ _ _) as [s|]; [|reflexivity].
  simpl in Hn. cbn [div_result]. unfold bind at 1, ret at 1.
  rewrite Hn. reflexivity.
Qed.

Lemma filter_base_unity_events (cd target : string) (sf : list string)
    (s n : Z) :
  List.filter Generator.is_base_call
    (Generator.unity_source_events cd target sf s n) = [].
Proof.
  unfold Generator.unity_source_events.
  induction (Py.range n) as [|idx l IH]; [done|].
  rewrite fmap_cons. cbn. exact IH.
Qed.

Lemma filter_unity_unity_events (cd target : string) (sf : list string)
    (s n : Z) :
  List.filter Generator.is_unity_source
    (Generator.unity_source_events cd target sf s n)
  = Generator.unity_source_events cd target sf s n.
Proof.
  unfold Generator.unity_source_events.
  induction (Py.range n) as [|idx l IH]; [done|].
  rewrite fmap_cons. cbn. f_equal. exact IH.
Qed.

Lemma enabled_events_base_calls (cd target : string) (sf : list string)
    (on : list PyObj) (s n : Z) (a : Args) :
  List.filter Generator.is_base_call
    (Generator.enabled_events cd target sf on s n a)
  = [EvBase target (Generator.builder_source cd target n on) a].
Proof.
  unfold Generator.enabled_events.
  rewrite !List.filter_app, filter_base_unity_events.
  by destruct (0 <? Py.len on).
Qed.

Lemma enabled_events_unity_sources (cd target : string) (sf : list string)
    (on : list PyObj) (s n : Z) (a : Args) :
  List.filter Generator.is_unity_source
    (Generator.enabled_events cd target sf on s n a)
  = Generator.unity_source_events cd target sf s n.
Proof.
  unfold Generator.enabled_events.
  rewrite !List.filter_app, filter_unity_unity_events.
  destruct (0 <? Py.len on); cbn [List.filter Generator.is_unity_source app];
    by rewrite app_nil_r.
Qed.

Lemma enabled_events_last (cd target : string) (sf : list string)
    (on : list PyObj) (s n : Z) (a : Args) :
  last (Generator.enabled_events cd target sf on s n a)
  = Some (EvBase target (Generator.builder_source cd target n on) a).
Proof.
  unfold Generator.enabled_events. rewrite !app_assoc. apply last_snoc.
Qed.

(** With neither option zero the arithmetic of the enabled path raises
    nothing. *)
Lemma enabled_arithmetic (T K M : Z) :
  K ≠ 0 → M ≠ 0 →
  ∃ s n, Partition.sources_per_file T K M = Some s
         ∧ Py.ceil_div T s = Some n.
Proof.
  intros HK HM. rewrite sources_per_file_nonzero by done.
  eexists. eexists. split; [reflexivity|].
  apply ceil_div_nonzero. lia.
Qed.

End generator_facts.

(** A value is never the one-element list of itself. *)
Lemma PyVal_not_own_singleton (r : PyVal) : VList [r] ≠ r.
Proof.
  revert r. fix IH 1. intros [o|l] Heq; [discriminate|].
  injection Heq as Heq.
  destruct l as [|r [|r' l']]; try discriminate.
  injection Heq as Heq. apply (IH r). exact Heq.
Qed.

(** C7.  With [UNITY_DISABLE] set, all the generator does is call the
    wrapped builder, with the [source] it received, nested lists and all,
    and with the target and the other arguments: no directory is made and no
    aggregate is registered. *)
Theorem C7_disabled_forwards_source
    (base_generator : string → list SourceItem → Args → PyVal)
    (env : Env) (source : list SourceItem) (target : string)
    (cache_dir : option CacheDir) (a : Args) (w : World) :
  UNITY_DISABLE env = true →
  Generator.generator base_generator env source target cache_dir a w
  = (Ret (base_generator target source a),
     {| log := log w ++ [EvBase target source a]; files := files w |}).
Proof.
  intros Hd. unfold Generator.generator. rewrite Hd.
  apply call_base_run.
Qed.

Lemma C7_disabled_forwards_source_witness :
  let base := λ (_ : string) (_ : list SourceItem) (_ : Args), VObj (Obj 7) in
  let env := {| UNITY_DISABLE := true; UNITY_MIN_FILES := 2;
                UNITY_MAX_SOURCES := 15; UNITY_CACHE_DIR := CacheStr ".unity" |} in
  let source := [SList [SStr "a.cpp"; SOther (Obj 1)]; SStr "b.cpp"] in
  let a := {| args := []; kwargs := [] |} in
  UNITY_DISABLE env = true
  ∧ Generator.generator base env source "prog" None a
      {| log := []; files := ∅ |}
    = (Ret (VObj (Obj 7)),
       {| log := [EvBase "prog" source a]; files := ∅ |}).
Proof.
  split; [reflexivity|].
  exact (C7_disabled_forwards_source
           (λ _ _ _, VObj (Obj 7))
           {| UNITY_DISABLE := true; UNITY_MIN_FILES := 2;
              UNITY_MAX_SOURCES := 15; UNITY_CACHE_DIR := CacheStr ".unity" |}
           [SList [SStr "a.cpp"; SOther (Obj 1)]; SStr "b.cpp"] "prog" None
           {| args := []; kwargs := [] |} {| log := []; files := ∅ |}
           eq_refl).
Defined.

(** C8.  With [UNITY_DISABLE] unset (and neither [UNITY_MIN_FILES] nor
    [UNITY_MAX_SOURCES] zero, as every valid configuration has them), the
    generator returns, and among what it does there is exactly one call of
    the wrapped builder, the last thing it does; its [source] is the paths
    of the aggregates, by ascending group index, followed by the nodes that
    are not compilable sources, in the order in which they stand in the
    input; the target and the other arguments are those received. *)
Theorem C8_enabled_calls_builder_once
    (base_generator : string → list SourceItem → Args → PyVal)
    (env : Env) (source : list SourceItem) (target : string)
    (cache_dir : option CacheDir) (a : Args) (w : World) :
  UNITY_DISABLE env = false →
  UNITY_MIN_FILES env ≠ 0 →
  UNITY_MAX_SOURCES env ≠ 0 →
  let source_files := (Flatten._flatten_source source).1 in
  let other_nodes := (Flatten._flatten_source source).2 in
  let cd := Generator.resolve_cache_dir env cache_dir in
  ∃ (s n : Z) (evs : list Event),
    Partition.sources_per_file (Py.len source_files)
      (UNITY_MIN_FILES env) (UNITY_MAX_SOURCES env) = Some s
    ∧ Py.ceil_div (Py.len source_files) s = Some n
    ∧ other_nodes = Flatten.others_of (Flatten.leaves (SList source))
    ∧ let builder_source :=
        (SStr <$> ((λ idx, Generator.unity_filename cd (Py.basename target) idx)
                     <$> Py.range n))
        ++ (SOther <$> other_nodes) in
      Generator.generator base_generator env source target cache_dir a w
      = (Ret (VList [base_generator target builder_source a]),
         {| log := log w ++ evs; files := files w |})
      ∧ List.filter Generator.is_base_call evs
        = [EvBase target builder_source a]
      ∧ last evs = Some (EvBase target builder_source a)
      ∧ List.filter Generator.is_unity_source evs
        = (λ idx, EvUnitySource
                    (Generator.unity_filename cd (Py.basename target) idx)
                    (Partition.unity_group source_files s idx))
            <$> Py.range n.
Proof.
  intros Hd HK HM source_files other_nodes cd.
  destruct (enabled_arithmetic (Py.len source_files) _ _ HK HM)
    as (s & n & Hs & Hn).
  exists s, n,
    (Generator.enabled_events cd target source_files other_nodes s n a).
  split; [exact Hs|]. split; [exact Hn|].
  split; [subst other_nodes; by rewrite flatten_source_spec|].
  intros builder_source. split_and!.
  - apply (generator_enabled_run base_generator env source target cache_dir
             a w s n Hd Hs Hn).
  - apply enabled_events_base_calls.
  - apply enabled_events_last.
  - apply enabled_events_unity_sources.
Qed.

Lemma C8_enabled_calls_builder_once_witness :
  let base := λ (_ : string) (_ : list SourceItem) (_ : Args), VObj (Obj 7) in
  let env := {| UNITY_DISABLE := false; UNITY_MIN_FILES := 2;
                UNITY_MAX_SOURCES := 15; UNITY_CACHE_DIR := CacheStr ".unity" |} in
  let source := [SList [SStr "a.cpp"; SOther (Obj 1)]; SStr "b.cpp"] in
  let a := {| args := []; kwargs := [] |} in
  UNITY_DISABLE env = false ∧ UNITY_MIN_FILES env ≠ 0
  ∧ UNITY_MAX_SOURCES env ≠ 0
  ∧ ∃ evs : list Event,
      Generator.generator base env source "out/prog" None a
        {| log := []; files := ∅ |}
      = (Ret (VList [VObj (Obj 7)]), {| log := evs; files := ∅ |})
      ∧ List.filter Generator.is_base_call evs
        = [EvBase "out/prog"
             [SStr ".unity/prog_0.cpp"; SStr ".unity/prog_1.cpp"; SOther (Obj 1)]
             a].
Proof.
  cbv zeta.
  split; [reflexivity|]. split; [cbn; lia|]. split; [cbn; lia|].
  destruct (C8_enabled_calls_builder_once
              (λ _ _ _, VObj (Obj 7))
              {| UNITY_DISABLE := false; UNITY_MIN_FILES := 2;
                 UNITY_MAX_SOURCES := 15; UNITY_CACHE_DIR := CacheStr ".unity" |}
              [SList [SStr "a.cpp"; SOther (Obj 1)]; SStr "b.cpp"] "out/prog"
              None {| args := []; kwargs := [] |} {| log := []; files := ∅ |})
    as (s & n & evs & Hs & Hn & _ & Hrun & Hcalls & _);
    [reflexivity|cbn; lia|cbn; lia|].
  change (Some 1 = Some s) in Hs. injection Hs as <-.
  change (Some 2 = Some n) in Hn. injection Hn as <-.
  exists evs. split; [exact Hrun|exact Hcalls].
Defined.

(** C10.  The generator returns the wrapped builder's result as it is when
    [UNITY_DISABLE] is set, and a one-element list holding that result when
    it is not; the two returned values differ whenever the builder's results
    are the same. *)
Theorem C10_return_shape_differs
    (base_generator : string → list SourceItem → Args → PyVal)
    (env_off env_on : Env) (source : list SourceItem) (target : string)
    (cache_dir : option CacheDir) (a : Args) (w : World) :
  UNITY_DISABLE env_off = true →
  UNITY_DISABLE env_on = false →
  UNITY_MIN_FILES env_on ≠ 0 →
  UNITY_MAX_SOURCES env_on ≠ 0 →
  ∃ (builder_source : list SourceItem),
    let r_off := base_generator target source a in
    let r_on := base_generator target builder_source a in
    let off := Generator.generator base_generator env_off source target
                 cache_dir a w in
    let on := Generator.generator base_generator env_on source target
                cache_dir a w in
    off.1 = Ret r_off
    ∧ on.1 = Ret (VList [r_on])
    ∧ last (log on.2) = Some (EvBase target builder_source a)
    ∧ (r_on = r_off → off.1 ≠ on.1).
Proof.
  intros Hoff Hon HK HM.
  destruct (enabled_arithmetic
              (Py.len (Flatten._flatten_source source).1) _ _ HK HM)
    as (s & n & Hs & Hn).
  eexists. cbv zeta.
  rewrite (generator_disabled_run base_generator env_off _ _ _ _ _ Hoff).
  rewrite (generator_enabled_run base_generator env_on source target cache_dir
             a w s n Hon Hs Hn).
  cbn [fst snd log]. split_and!.
  - reflexivity.
  - reflexivity.
  - rewrite last_app, enabled_events_last. reflexivity.
  - intros Heq Hret. injection Hret as Hret. rewrite Heq in Hret.
    symmetry in Hret. by apply PyVal_not_own_singleton in Hret.
Qed.

Lemma C10_return_shape_differs_witness :
  let base := λ (_ : string) (_ : list SourceItem) (_ : Args), VObj (Obj 7) in
  let env_off := {| UNITY_DISABLE := true; UNITY_MIN_FILES := 2;
                    UNITY_MAX_SOURCES := 15;
                    UNITY_CACHE_DIR := CacheStr ".unity" |} in
  let env_on := {| UNITY_DISABLE := false; UNITY_MIN_FILES := 2;
                   UNITY_MAX_SOURCES := 15;
                   UNITY_CACHE_DIR := CacheStr ".unity" |} in
  let source := [SStr "a.cpp"; SStr "b.cpp"] in
  let a := {| args := []; kwargs := [] |} in
  let w := {| log := []; files := ∅ |} in
  UNITY_DISABLE env_off = true ∧ UNITY_DISABLE env_on = false
  ∧ UNITY_MIN_FILES env_on ≠ 0 ∧ UNITY_MAX_SOURCES env_on ≠ 0
  ∧ (Generator.generator base env_off source "prog" None a w).1
    = Ret (VObj (Obj 7))
  ∧ (Generator.generator base env_on source "prog" None a w).1
    = Ret (VList [VObj (Obj 7)])
  ∧ (Generator.generator base env_off source "prog" None a w).1
    ≠ (Generator.generator base env_on source "prog" None a w).1.
Proof.
  cbv zeta.
  split; [reflexivity|]. split; [reflexivity|].
  split; [cbn; lia|]. split; [cbn; lia|].
  destruct (C10_return_shape_differs
              (λ _ _ _, VObj (Obj 7))
              {| UNITY_DISABLE := true; UNITY_MIN_FILES := 2;
                 UNITY_MAX_SOURCES := 15; UNITY_CACHE_DIR := CacheStr ".unity" |}
              {| UNITY_DISABLE := false; UNITY_MIN_FILES := 2;
                 UNITY_MAX_SOURCES := 15; UNITY_CACHE_DIR := CacheStr ".unity" |}
              [SStr "a.cpp"; SStr "b.cpp"] "prog" None
              {| args := []; kwargs := [] |} {| log := []; files := ∅ |})
    as (src & Hoff & Hon & _ & Hne);
    [reflexivity|reflexivity|cbn; lia|cbn; lia|].
  split; [exact Hoff|]. split; [exact Hon|]. apply Hne. reflexivity.
Defined.

(** * Further properties of the renderer *)

Section render_more.

Lemma double_backslashes_inj (p q : string) :
  Render.double_backslashes p = Render.double_backslashes q → p = q.
Proof.
  revert q. induction p as [|c p IH]; intros [|d q]; cbn [Render.double_backslashes].
  - done.
  - destruct (Ascii.eqb d "\"); discriminate.
  - destruct (Ascii.eqb c "\"); discriminate.
  - destruct (Ascii.eqb_spec c "\") as [->|Hc],
             (Ascii.eqb_spec d "\") as [->|Hd]; intros Heq.
    + injection Heq as Heq. by rewrite (IH q Heq).
    + injection Heq as Hd' _. congruence.
    + injection Heq as Hc' _. congruence.
    + injection Heq as -> Heq. by rewrite (IH q Heq).
Qed.

Lemma double_backslashes_length (p : string) :
  String.length (Render.double_backslashes p)
  = (String.length p + Observe.count_backslashes p)%nat.
Proof.
  induction p as [|c p IH]; [done|].
  cbn [Render.double_backslashes Observe.count_backslashes].
  destruct (Ascii.eqb c "\"); cbn [String.length]; rewrite IH; lia.
Qed.

End render_more.

(** X2.  The renderer changes nothing but the file at its target: every
    other file keeps its contents (or its absence), and no call to the
    outside is logged. *)
Theorem X2_render_touches_only_target (t : Node) (source : list Node)
    (w : World) (p : string) :
  p ≠ abspath t →
  files (Render._generate_unity_file [t] source w).2 !! p = files w !! p
  ∧ log (Render._generate_unity_file [t] source w).2 = log w.
Proof.
  intros Hp. rewrite generate_unity_file_run. cbn [snd files log].
  split; [|reflexivity]. by rewrite lookup_insert_ne.
Qed.

Lemma X2_render_touches_only_target_witness :
  "other.cpp" ≠ abspath {| abspath := "t.cpp" |}
  ∧ files (Render._generate_unity_file [ {| abspath := "t.cpp" |} ]
             [ {| abspath := "x.cpp" |} ]
             {| log := []; files := {[ "other.cpp" := "kept" ]} |}).2
      !! "other.cpp"
    = Some "kept".
Proof.
  split; [discriminate|].
  destruct (X2_render_touches_only_target {| abspath := "t.cpp" |}
              [ {| abspath := "x.cpp" |} ]
              {| log := []; files := {[ "other.cpp" := "kept" ]} |}
              "other.cpp") as [Hf _]; [discriminate|].
  rewrite Hf. reflexivity.
Defined.

(** X3.  The escaping of line 132 loses nothing: two source nodes get the
    same escaped path only if they have the same path. *)
Theorem X3_escaping_is_injective (a b : Node) :
  Render.fpath_of a = Render.fpath_of b ↔ abspath a = abspath b.
Proof.
  unfold Render.fpath_of. rewrite !replace_backslash. split.
  - apply double_backslashes_inj.
  - by intros ->.
Qed.

(** X4.  The escaped path is longer than the path by the number of its
    backslashes, and it is the path itself exactly when the path has no
    backslash. *)
Theorem X4_escaping_length (n : Node) :
  String.length (Render.fpath_of n)
  = (String.length (abspath n) + Observe.count_backslashes (abspath n))%nat
  ∧ (Observe.count_backslashes (abspath n) = 0%nat
     ↔ Render.fpath_of n = abspath n).
Proof.
  unfold Render.fpath_of. rewrite replace_backslash.
  split; [apply double_backslashes_length|].
  split.
  - generalize (abspath n). intros p.
    induction p as [|c p IH]; [done|].
    cbn [Render.double_backslashes Observe.count_backslashes].
    destruct (Ascii.eqb c "\"); [discriminate|].
    intros H0. by rewrite (IH H0).
  - intros Heq. apply (f_equal String.length) in Heq.
    rewrite double_backslashes_length in Heq. lia.
Qed.

(** X5.  Renderings to two different targets do not interfere: in either
    order they leave the same files. *)
Theorem X5_render_targets_commute (t1 t2 : Node) (s1 s2 : list Node)
    (w : World) :
  abspath t1 ≠ abspath t2 →
  files (Render._generate_unity_file [t2] s2
           (Render._generate_unity_file [t1] s1 w).2).2
  = files (Render._generate_unity_file [t1] s1
             (Render._generate_unity_file [t2] s2 w).2).2.
Proof.
  intros Hne. rewrite !generate_unity_file_run. cbn [snd files log].
  by apply insert_insert_ne.
Qed.

Lemma X5_render_targets_commute_witness :
  let t1 := {| abspath := "u_0.cpp" |} in
  let t2 := {| abspath := "u_1.cpp" |} in
  let s1 := [ {| abspath := "a.cpp" |} ] in
  let s2 := [ {| abspath := "b.cpp" |} ] in
  let w := {| log := []; files := ∅ |} in
  abspath t1 ≠ abspath t2
  ∧ files (Render._generate_unity_file [t2] s2
             (Render._generate_unity_file [t1] s1 w).2).2
    = files (Render._generate_unity_file [t1] s1
               (Render._generate_unity_file [t2] s2 w).2).2.
Proof.
  cbv zeta. split; [discriminate|].
  apply (X5_render_targets_commute {| abspath := "u_0.cpp" |}
           {| abspath := "u_1.cpp" |}). discriminate.
Defined.

(** X6.  A rendering replaces whatever an earlier rendering left at the
    same target: after rendering group [s1] and then group [s2] to [t], the
    files are those that rendering [s2] alone leaves. *)
Theorem X6_render_last_write_wins (t : Node) (s1 s2 : list Node) (w : World) :
  files (Render._generate_unity_file [t] s2
           (Render._generate_unity_file [t] s1 w).2).2
  = files (Render._generate_unity_file [t] s2 w).2.
Proof.
  rewrite !generate_unity_file_run. cbn [snd files log].
  apply insert_insert_eq.
Qed.

(** * Further properties of the partitioner *)

Section partition_more.

Context {A : Type}.
Implicit Types (l : list A).

(** Chunks of one element are the elements. *)
Lemma chunks_of_one l :
  (λ i, take 1 (drop (i * 1) l)) <$> seq 0 (length l) = (λ x, [x]) <$> l.
Proof.
  apply list_eq. intros i. rewrite !list_lookup_fmap.
  destruct (l !! i) as [x|] eqn:Hx.
  - rewrite (proj2 (lookup_seq 0 (length l) i i)).
    + cbn. rewrite Nat.mul_1_r, (drop_S l x i Hx). reflexivity.
    + split; [done|]. by apply lookup_lt_Some in Hx.
  - rewrite lookup_ge_None_2; [done|].
    rewrite length_seq. by apply lookup_ge_None in Hx.
Qed.

(** The loop's slices, for a valid configuration, make up the sources. *)
Lemma unity_groups_concat l (K M : Z) :
  1 ≤ M → 1 ≤ K →
  ∃ s n : Z,
    Partition.sources_per_file (Py.len l) K M = Some s
    ∧ Py.ceil_div (Py.len l) s = Some n
    ∧ concat ((λ idx, Partition.unity_group l s idx) <$> Py.range n) = l.
Proof.
  intros HM HK.
  destruct (unity_groups_valid l K M HM HK)
    as (s & n & Hs & _ & Hn & Hs1 & Hlo & Hhi & Hg).
  exists (Z.of_nat s), (Z.of_nat n). split; [done|]. split; [done|].
  unfold Partition.unity_groups in Hg. rewrite Hs in Hg. cbn in Hg.
  rewrite Hn in Hg. cbn in Hg. injection Hg as ->.
  rewrite concat_chunks. cbn. rewrite drop_0, take_ge; [done|nia].
Qed.

End partition_more.

(** X7.  When [UNITY_MIN_FILES] is negative, or at least the number of
    sources, and [UNITY_MAX_SOURCES >= 1], every source is a group of its
    own. *)
Theorem X7_one_source_per_group {A : Type} (l : list A) (K M : Z) :
  K < 0 ∨ (1 ≤ K ∧ Py.len l ≤ K) → 1 ≤ M →
  Partition.unity_groups l K M = Some ((λ x, [x]) <$> l).
Proof.
  intros HK HM. unfold Py.len in HK.
  assert (Partition.sources_per_file (Py.len l) K M = Some 1) as Hs.
  { rewrite sources_per_file_nonzero by lia. f_equal. unfold Py.len.
    destruct HK as [HK|[HK HT]].
    - pose proof (ceil_div_neg_nonpos (Z.of_nat (length l)) K ltac:(lia) HK).
      lia.
    - pose proof (ceil_div_pos_bounds (Z.of_nat (length l)) K ltac:(lia)).
      nia. }
  assert (Py.ceil_div (Py.len l) 1 = Some (Py.len l)) as Hn.
  { rewrite ceil_div_nonzero by lia. f_equal. rewrite Z.div_1_r. lia. }
  rewrite (unity_groups_chunks l K M 1 (Py.len l) Hs Hn ltac:(lia)).
  unfold Py.len. rewrite Nat2Z.id. f_equal. apply chunks_of_one.
Qed.

Lemma X7_one_source_per_group_witness :
  (-2 < 0 ∨ (1 ≤ -2 ∧ Py.len (seq 0 3) ≤ -2)) ∧ 1 ≤ 15
  ∧ Partition.unity_groups (seq 0 3) (-2) 15 = Some [[0]; [1]; [2]]%nat.
Proof.
  split; [left; lia|]. split; [lia|].
  apply (X7_one_source_per_group (seq 0 3) (-2) 15); [left; lia|lia].
Defined.

(** X8.  For [T >= 1] sources, [K >= 1] and [M >= 1]: when the size cap
    does not bind ([ceil(T/K) <= M]) the number of unity files is at most
    [min(K, T)] and more than half of it; when it binds, there are more
    than [K] unity files. *)
Theorem X8_group_count_bounds (T K M : Z) :
  1 ≤ T → 1 ≤ K → 1 ≤ M →
  ∃ n, Partition.num_unity_files T K M = Some n
       ∧ (- ((- T) `div` K) ≤ M → n ≤ Z.min K T ∧ Z.min K T < 2 * n)
       ∧ (M < - ((- T) `div` K) → K < n).
Proof.
  intros HT HK HM.
  destruct (sources_per_file_spec T K M ltac:(lia) HM) as [Hs Hs1].
  unfold Partition.spec_effective_size in Hs, Hs1.
  pose proof (ceil_div_pos_bounds T K ltac:(lia)) as Hc.
  set (c := - ((- T) `div` K)) in *.
  set (s := Z.max 1 (Z.min M c)) in *.
  destruct (group_count_bounds T s ltac:(lia) ltac:(lia)) as (n & Hn & Hn0 & Hb).
  exists n. split; [unfold Partition.num_unity_files; rewrite Hs; exact Hn|].
  assert (1 ≤ c) as Hc1 by nia.
  split.
  - intros Hcap. assert (s = c) as Hsc by lia. rewrite Hsc in Hb.
    assert (n ≤ K) by nia. assert (n ≤ T) by nia.
    split; [lia|].
    destruct (Z_le_gt_dec (Z.min K T) (2 * n - 1)) as [|Hgt]; [lia|exfalso].
    assert (2 * n ≤ K) by lia. assert (2 * n ≤ T) by lia.
    assert (1 ≤ n) by nia.
    assert (c ≤ 1) as Hc2.
    { destruct (Z_le_gt_dec c 1) as [|Hc2]; [done|exfalso].
      assert ((c - 1) * (2 * n) ≤ (c - 1) * K) by nia.
      assert ((c - 1) * (2 * n) < n * c) by lia.
      nia. }
    nia.
  - intros Hcap. assert (s = M) as HsM by lia. rewrite HsM in Hb.
    assert (M * K < T) by nia. nia.
Qed.

Lemma X8_group_count_bounds_witness :
  1 ≤ 5 ∧ 1 ≤ 4 ∧ 1 ≤ 15
  ∧ ∃ n, Partition.num_unity_files 5 4 15 = Some n ∧ n ≤ 4 ∧ 4 < 2 * n.
Proof.
  split; [lia|]. split; [lia|]. split; [lia|].
  destruct (X8_group_count_bounds 5 4 15) as (n & Hn & Hlo & _);
    [lia|lia|lia|].
  exists n. split; [exact Hn|].
  assert (- ((- 5) `div` 4) ≤ 15) as Hcap by (vm_compute; congruence).
  destruct (Hlo Hcap) as [H1 H2]. split; lia.
Defined.

(** X9.  When [K >= 1] divides the number of sources and the quotient [q]
    is between 1 and [M], there are exactly [K] groups, of [q] sources
    each. *)
Theorem X9_even_split {A : Type} (l : list A) (K M q : Z) :
  1 ≤ K → 1 ≤ q ≤ M → Py.len l = K * q →
  ∃ groups : list (list A),
    Partition.unity_groups l K M = Some groups
    ∧ Py.len groups = K
    ∧ Forall (λ g, Py.len g = q) groups.
Proof.
  intros HK Hq HT.
  assert (- ((- Py.len l) `div` K) = q) as Hc.
  { apply ceil_div_pos_unique; [lia|]. rewrite HT. nia. }
  assert (Partition.sources_per_file (Py.len l) K M = Some q) as Hs.
  { rewrite sources_per_file_nonzero by lia. rewrite Hc. f_equal. lia. }
  assert (Py.ceil_div (Py.len l) q = Some K) as Hn.
  { rewrite ceil_div_nonzero by lia. f_equal.
    apply ceil_div_pos_unique; [lia|]. rewrite HT. nia. }
  rewrite (unity_groups_chunks l K M q K Hs Hn ltac:(lia)).
  eexists. split; [reflexivity|]. unfold Py.len in *. split.
  - rewrite length_fmap, length_seq. lia.
  - apply Forall_fmap, Forall_forall. intros i Hi%elem_of_seq. cbn.
    rewrite length_chunk. nia.
Qed.

Lemma X9_even_split_witness :
  1 ≤ 3 ∧ 1 ≤ 4 ≤ 15 ∧ Py.len (seq 0 12) = 3 * 4
  ∧ ∃ groups : list (list nat),
      Partition.unity_groups (seq 0 12) 3 15 = Some groups
      ∧ Py.len groups = 3.
Proof.
  split; [lia|]. split; [lia|]. split; [reflexivity|].
  destruct (X9_even_split (seq 0 12) 3 15 4) as (g & Hg & Hlen & _);
    [lia|lia|reflexivity|].
  exists g. split; [exact Hg|exact Hlen].
Defined.

(** * Further properties of flattening *)

Section flatten_more.

Lemma leaves_count (ls : list Flatten.Leaf) :
  (length (Flatten.sources_of ls) + length (Flatten.others_of ls))%nat
  = length ls.
Proof.
  unfold Flatten.sources_of, Flatten.others_of.
  induction ls as [|[p|o] ls IH]; cbn; [done|lia|lia].
Qed.

Lemma flat_leaves (sf : list string) (on : list PyObj) :
  concat (map Flatten.leaves ((SStr <$> sf) ++ (SOther <$> on)))
  = (Flatten.Compilable <$> sf) ++ (Flatten.Passthrough <$> on).
Proof.
  rewrite map_app, concat_app. f_equal.
  - induction sf as [|p sf IH]; [done|]. rewrite !fmap_cons.
    cbn [map concat Flatten.leaves app]. f_equal. exact IH.
  - induction on as [|o on IH]; [done|]. rewrite !fmap_cons.
    cbn [map concat Flatten.leaves app]. f_equal. exact IH.
Qed.

End flatten_more.

(** X10.  Flattening goes through concatenation and ignores how the input
    is nested: flattening [l1 ++ l2] gives the sources of [l1] then those of
    [l2] (and the same for the other nodes), and wrapping a list in one more
    list changes nothing. *)
Theorem X10_flatten_append_and_nesting (l1 l2 : list SourceItem) :
  Flatten._flatten_source (l1 ++ l2)
  = ((Flatten._flatten_source l1).1 ++ (Flatten._flatten_source l2).1,
     (Flatten._flatten_source l1).2 ++ (Flatten._flatten_source l2).2)
  ∧ Flatten._flatten_source [SList l1] = Flatten._flatten_source l1
  ∧ Flatten._flatten_source [SList l1; SList l2]
    = Flatten._flatten_source (l1 ++ l2).
Proof.
  rewrite !flatten_source_spec. cbn [Flatten.leaves fst snd map concat].
  unfold Flatten.sources_of, Flatten.others_of.
  rewrite !map_app, !concat_app, !omap_app, !app_nil_r. done.
Qed.

(** X11.  Flattening what flattening returned gives it back: a flat list of
    path strings followed by other nodes, as the generator hands to the
    wrapped builder, flattens to exactly those paths and those nodes. *)
Theorem X11_flatten_of_flat (sf : list string) (on : list PyObj) :
  Flatten._flatten_source ((SStr <$> sf) ++ (SOther <$> on)) = (sf, on).
Proof.
  rewrite flatten_source_spec. cbn [Flatten.leaves]. rewrite flat_leaves.
  unfold Flatten.sources_of, Flatten.others_of. rewrite !omap_app. f_equal.
  - replace (omap Flatten.compilable (Flatten.Passthrough <$> on))
      with (@nil string) by (induction on as [|o on IH]; [done|exact IH]).
    rewrite app_nil_r. induction sf as [|p sf IH]; [done|].
    rewrite fmap_cons. cbn. by rewrite IH.
  - replace (omap Flatten.passthrough (Flatten.Compilable <$> sf))
      with (@nil PyObj) by (induction sf as [|p sf IH]; [done|exact IH]).
    cbn. induction on as [|o on IH]; [done|].
    rewrite fmap_cons. cbn. by rewrite IH.
Qed.

(** X12.  Flattening neither loses nor repeats a leaf: the sources and the
    other nodes it returns are together as many as the leaves of the
    input. *)
Theorem X12_flatten_keeps_every_leaf (source : list SourceItem) :
  (length (Flatten._flatten_source source).1
   + length (Flatten._flatten_source source).2)%nat
  = length (Flatten.leaves (SList source)).
Proof. rewrite flatten_source_spec. apply leaves_count. Qed.

(** * Further properties of the generator *)

Section generator_more.

Variable base_generator : string → list SourceItem → Args → PyVal.

Lemma range_nonpos (n : Z) : n ≤ 0 → Py.range n = [].
Proof.
  intros Hn. unfold Py.range, seqZ.
  replace (Z.to_nat n) with 0%nat by lia. reflexivity.
Qed.

Lemma unity_events_sources (cd target : string) (sf : list string) (s n : Z) :
  Observe.unity_event_sources <$> Generator.unity_source_events cd target sf s n
  = (λ idx, Partition.unity_group sf s idx) <$> Py.range n.
Proof.
  unfold Generator.unity_source_events.
  induction (Py.range n) as [|idx l IH]; [done|].
  rewrite !fmap_cons. f_equal. exact IH.
Qed.

Lemma unity_events_printed (cd target : string) (sf : list string) (s n : Z) :
  Observe.printed (Generator.unity_source_events cd target sf s n) = [].
Proof.
  unfold Generator.unity_source_events, Observe.printed.
  induction (Py.range n) as [|idx l IH]; [done|].
  rewrite fmap_cons. cbn. exact IH.
Qed.

Lemma unity_events_made_dirs (cd target : string) (sf : list string) (s n : Z) :
  Observe.made_dirs (Generator.unity_source_events cd target sf s n) = [].
Proof.
  unfold Generator.unity_source_events, Observe.made_dirs.
  induction (Py.range n) as [|idx l IH]; [done|].
  rewrite fmap_cons. cbn. exact IH.
Qed.

(** Every run of the generator, summed up: it raises and does nothing, or
    it returns after adding events to the log. *)
Lemma generator_outcomes (env : Env) (source : list SourceItem)
    (target : string) (cache_dir : option CacheDir) (a : Args) (w : World) :
  Generator.generator base_generator env source target cache_dir a w
  = (Raise Py.ZeroDivisionError, w)
  ∨ ∃ r evs,
      Generator.generator base_generator env source target cache_dir a w
      = (Ret r, {| log := log w ++ evs; files := files w |}).
Proof.
  destruct (UNITY_DISABLE env) eqn:Hd.
  - right. eexists. eexists. by apply generator_disabled_run.
  - destruct (Partition.sources_per_file
                (Py.len (Flatten._flatten_source source).1)
                (UNITY_MIN_FILES env) (UNITY_MAX_SOURCES env)) as [s|] eqn:Hs.
    + destruct (Py.ceil_div (Py.len (Flatten._flatten_source source).1) s)
        as [n|] eqn:Hn.
      * right. eexists. eexists.
        apply (generator_enabled_run base_generator env source target
                 cache_dir a w s n Hd Hs Hn).
      * left. apply generator_enabled_raises; [done|].
        unfold Partition.num_unity_files. rewrite Hs. exact Hn.
    + left. apply generator_enabled_raises; [done|].
      unfold Partition.num_unity_files. by rewrite Hs.
Qed.

End generator_more.

(** X13.  With [UNITY_DISABLE] unset, the generator raises
    [ZeroDivisionError], having done nothing, exactly when
    [UNITY_MIN_FILES] or [UNITY_MAX_SOURCES] is zero. *)
Theorem X13_enabled_raises_iff_zero_option
    (base_generator : string → list SourceItem → Args → PyVal)
    (env : Env) (source : list SourceItem) (target : string)
    (cache_dir : option CacheDir) (a : Args) (w : World) :
  UNITY_DISABLE env = false →
  Generator.generator base_generator env source target cache_dir a w
  = (Raise Py.ZeroDivisionError, w)
  ↔ (UNITY_MIN_FILES env = 0 ∨ UNITY_MAX_SOURCES env = 0).
Proof.
  intros Hd. split.
  - intros Hraise.
    destruct (decide (UNITY_MIN_FILES env = 0)) as [|HK]; [by left|].
    destruct (decide (UNITY_MAX_SOURCES env = 0)) as [|HM]; [by right|].
    exfalso.
    destruct (enabled_arithmetic
                (Py.len (Flatten._flatten_source source).1) _ _ HK HM)
      as (s & n & Hs & Hn).
    rewrite (generator_enabled_run base_generator env source target cache_dir
               a w s n Hd Hs Hn) in Hraise.
    discriminate.
  - intros Hz. apply generator_enabled_raises; [done|].
    unfold Partition.num_unity_files.
    destruct (decide (UNITY_MIN_FILES env = 0)) as [HK|HK].
    + rewrite HK. reflexivity.
    + destruct Hz as [|HM]; [done|].
      rewrite sources_per_file_nonzero by done. rewrite HM. cbn.
      replace (Z.min _ 0) with 0 by lia. reflexivity.
Qed.

Lemma X13_enabled_raises_iff_zero_option_witness :
  let base := λ (_ : string) (_ : list SourceItem) (_ : Args), VObj (Obj 7) in
  let env := {| UNITY_DISABLE := false; UNITY_MIN_FILES := 0;
                UNITY_MAX_SOURCES := 15; UNITY_CACHE_DIR := CacheStr ".unity" |} in
  let w := {| log := []; files := ∅ |} in
  UNITY_DISABLE env = false
  ∧ Generator.generator base env [SStr "a.cpp"] "prog" None
      {| args := []; kwargs := [] |} w
    = (Raise Py.ZeroDivisionError, w).
Proof.
  cbv zeta. split; [reflexivity|].
  apply (X13_enabled_raises_iff_zero_option (λ _ _ _, VObj (Obj 7))
           {| UNITY_DISABLE := false; UNITY_MIN_FILES := 0;
              UNITY_MAX_SOURCES := 15; UNITY_CACHE_DIR := CacheStr ".unity" |});
    [reflexivity|left; reflexivity].
Defined.

(** X14.  With [UNITY_DISABLE] unset, a negative [UNITY_MAX_SOURCES] (and a
    non-zero [UNITY_MIN_FILES]) makes the generator register no aggregate at
    all: the wrapped builder is called with the other nodes only, and the
    compilable sources are left out of the build. *)
Theorem X14_negative_cap_drops_sources
    (base_generator : string → list SourceItem → Args → PyVal)
    (env : Env) (source : list SourceItem) (target : string)
    (cache_dir : option CacheDir) (a : Args) (w : World) :
  UNITY_DISABLE env = false →
  UNITY_MIN_FILES env ≠ 0 →
  UNITY_MAX_SOURCES env < 0 →
  let other_nodes := (Flatten._flatten_source source).2 in
  Generator.generator base_generator env source target cache_dir a w
  = (Ret (VList [base_generator target (SOther <$> other_nodes) a]),
     {| log := log w
               ++ [EvMakedirs (Generator.resolve_cache_dir env cache_dir)]
               ++ (if 0 <? Py.len other_nodes
                   then [EvPrint (Generator.excluded_msg (Py.len other_nodes))]
                   else [])
               ++ [EvBase target (SOther <$> other_nodes) a];
        files := files w |}).
Proof.
  intros Hd HK HM other_nodes.
  pose proof (sources_per_file_bad_cap
                (Py.len (Flatten._flatten_source source).1)
                (UNITY_MIN_FILES env) (UNITY_MAX_SOURCES env) HK
                (Z.lt_le_incl _ _ HM)) as Hs.
  pose proof (ceil_div_nonzero (Py.len (Flatten._flatten_source source).1)
                (UNITY_MAX_SOURCES env) ltac:(lia)) as Hn.
  pose proof (ceil_div_neg_nonpos (Py.len (Flatten._flatten_source source).1)
                (UNITY_MAX_SOURCES env) ltac:(unfold Py.len; lia) HM) as Hn0.
  rewrite (generator_enabled_run base_generator env source target cache_dir
             a w _ _ Hd Hs Hn).
  unfold Generator.enabled_events, Generator.unity_source_events,
    Generator.builder_source, Generator.aggregates.
  rewrite (range_nonpos _ Hn0). reflexivity.
Qed.

Lemma X14_negative_cap_drops_sources_witness :
  let base := λ (_ : string) (_ : list SourceItem) (_ : Args), VObj (Obj 7) in
  let env := {| UNITY_DISABLE := false; UNITY_MIN_FILES := 2;
                UNITY_MAX_SOURCES := -1; UNITY_CACHE_DIR := CacheStr ".unity" |} in
  let a := {| args := []; kwargs := [] |} in
  UNITY_DISABLE env = false ∧ UNITY_MIN_FILES env ≠ 0
  ∧ UNITY_MAX_SOURCES env < 0
  ∧ Generator.generator base env [SStr "a.cpp"; SStr "b.cpp"] "prog" None a
      {| log := []; files := ∅ |}
    = (Ret (VList [VObj (Obj 7)]),
       {| log := [EvMakedirs ".unity"; EvBase "prog" [] a]; files := ∅ |}).
Proof.
  cbv zeta. split; [reflexivity|]. split; [cbn; lia|]. split; [cbn; lia|].
  apply (X14_negative_cap_drops_sources (λ _ _ _, VObj (Obj 7))
           {| UNITY_DISABLE := false; UNITY_MIN_FILES := 2;
              UNITY_MAX_SOURCES := -1; UNITY_CACHE_DIR := CacheStr ".unity" |}
           [SStr "a.cpp"; SStr "b.cpp"] "prog" None
           {| args := []; kwargs := [] |} {| log := []; files := ∅ |});
    [reflexivity|cbn; lia|cbn; lia].
Defined.

(** X15.  With [UNITY_DISABLE] unset and both options at least 1, the source
    lists handed to [env.UnitySource], one after the other, are the
    compilable sources of the input in their depth-first order: every one of
    them is in exactly one aggregate. *)
Theorem X15_aggregates_hold_every_source
    (base_generator : string → list SourceItem → Args → PyVal)
    (env : Env) (source : list SourceItem) (target : string)
    (cache_dir : option CacheDir) (a : Args) (w : World) :
  UNITY_DISABLE env = false →
  1 ≤ UNITY_MIN_FILES env →
  1 ≤ UNITY_MAX_SOURCES env →
  ∃ (r : PyVal) (evs : list Event),
    Generator.generator base_generator env source target cache_dir a w
    = (Ret r, {| log := log w ++ evs; files := files w |})
    ∧ concat (Observe.unity_event_sources <$> evs)
      = Flatten.sources_of (Flatten.leaves (SList source)).
Proof.
  intros Hd HK HM.
  destruct (unity_groups_concat (Flatten._flatten_source source).1 _ _ HM HK)
    as (s & n & Hs & Hn & Hcat).
  eexists. eexists. split.
  - apply (generator_enabled_run base_generator env source target cache_dir
             a w s n Hd Hs Hn).
  - unfold Generator.enabled_events.
    rewrite !fmap_app, !concat_app, unity_events_sources, Hcat.
    rewrite flatten_source_spec. cbn [fst].
    destruct (0 <? Py.len _); cbn; by rewrite app_nil_r.
Qed.

Lemma X15_aggregates_hold_every_source_witness :
  let base := λ (_ : string) (_ : list SourceItem) (_ : Args), VObj (Obj 7) in
  let env := {| UNITY_DISABLE := false; UNITY_MIN_FILES := 2;
                UNITY_MAX_SOURCES := 15; UNITY_CACHE_DIR := CacheStr ".unity" |} in
  let source := [SList [SStr "a.cpp"; SOther (Obj 1)]; SStr "b.cpp"] in
  UNITY_DISABLE env = false ∧ 1 ≤ UNITY_MIN_FILES env
  ∧ 1 ≤ UNITY_MAX_SOURCES env
  ∧ ∃ (r : PyVal) (evs : list Event),
      Generator.generator base env source "prog" None
        {| args := []; kwargs := [] |} {| log := []; files := ∅ |}
      = (Ret r, {| log := evs; files := ∅ |})
      ∧ concat (Observe.unity_event_sources <$> evs) = ["a.cpp"; "b.cpp"].
Proof.
  cbv zeta. split; [reflexivity|]. split; [cbn; lia|]. split; [cbn; lia|].
  apply (X15_aggregates_hold_every_source (λ _ _ _, VObj (Obj 7))
           {| UNITY_DISABLE := false; UNITY_MIN_FILES := 2;
              UNITY_MAX_SOURCES := 15; UNITY_CACHE_DIR := CacheStr ".unity" |}
           [SList [SStr "a.cpp"; SOther (Obj 1)]; SStr "b.cpp"] "prog" None
           {| args := []; kwargs := [] |} {| log := []; files := ∅ |});
    [reflexivity|cbn; lia|cbn; lia].
Defined.

(** X16.  Whatever the options, the generator itself writes no file, and
    what was logged before it ran is still there, in front of what it
    added. *)
Theorem X16_generator_writes_no_file
    (base_generator : string → list SourceItem → Args → PyVal)
    (env : Env) (source : list SourceItem) (target : string)
    (cache_dir : option CacheDir) (a : Args) (w : World) :
  files (Generator.generator base_generator env source target cache_dir a w).2
  = files w
  ∧ log w `prefix_of`
      log (Generator.generator base_generator env source target cache_dir a w).2.
Proof.
  destruct (generator_outcomes base_generator env source target cache_dir a w)
    as [->|(r & evs & ->)]; cbn [snd files log].
  - done.
  - split; [done|]. by apply prefix_app_r.
Qed.

(** ** Messages, directories and file names *)

Section names_facts.

Lemma length_append (s t : string) :
  String.length (s +:+ t) = (String.length s + String.length t)%nat.
Proof.
  induction s as [|c s IH]; [done|].
  rewrite append_cons. cbn [String.length]. by rewrite IH.
Qed.

(** A common suffix cancels. *)
Lemma append_inj_r (s1 s2 t : string) : s1 +:+ t = s2 +:+ t → s1 = s2.
Proof.
  revert s2. induction s1 as [|c s1 IH]; intros [|d s2] Heq.
  - done.
  - apply (f_equal String.length) in Heq.
    rewrite !length_append in Heq. cbn [String.length] in Heq. lia.
  - apply (f_equal String.length) in Heq.
    rewrite !length_append in Heq. cbn [String.length] in Heq. lia.
  - rewrite !append_cons in Heq. injection Heq as -> Heq.
    by rewrite (IH s2 Heq).
Qed.

(** Line 91 gives different indices different names. *)
Lemma unity_filename_inj (cd tb : string) (i j : Z) :
  Generator.unity_filename cd tb i = Generator.unity_filename cd tb j → i = j.
Proof.
  unfold Generator.unity_filename. intros Heq.
  do 4 apply String.app_inj in Heq.
  apply append_inj_r in Heq. by apply pretty_Z_inj in Heq.
Qed.

(** [os.path.basename] of a path without a slash is the path. *)
Lemma basename_from_no_slash (acc f : string) :
  Observe.no_slash f = true → Py.basename_from acc f = acc +:+ f.
Proof.
  revert acc. induction f as [|c f IH]; intros acc Hf; cbn [Py.basename_from].
  - by rewrite append_nil_r.
  - cbn [Observe.no_slash] in Hf. apply andb_prop in Hf as [Hc Hf].
    apply negb_true_iff in Hc. rewrite Hc, (IH _ Hf), append_assoc.
    reflexivity.
Qed.

(** [os.path.basename] drops a directory in front. *)
Lemma basename_from_dir (acc d f : string) :
  Observe.no_slash f = true → Py.basename_from acc (d +:+ "/" +:+ f) = f.
Proof.
  intros Hf. revert acc. induction d as [|c d IH]; intros acc.
  - change (EmptyString +:+ "/" +:+ f) with (String "/" f).
    cbn [Py.basename_from]. change (Ascii.eqb "/" "/") with true.
    by rewrite basename_from_no_slash.
  - rewrite append_cons. cbn [Py.basename_from].
    destruct (Ascii.eqb c "/"); apply IH.
Qed.

Lemma basename_dir (d f : string) :
  Observe.no_slash f = true → Py.basename (d +:+ "/" +:+ f) = f.
Proof. apply basename_from_dir. Qed.

End names_facts.

(** X17.  With [UNITY_DISABLE] unset and neither option zero, the generator
    prints one message, giving the number of nodes kept out of the
    aggregates, when there is such a node, and prints nothing otherwise. *)
Theorem X17_excluded_message
    (base_generator : string → list SourceItem → Args → PyVal)
    (env : Env) (source : list SourceItem) (target : string)
    (cache_dir : option CacheDir) (a : Args) (w : World) :
  UNITY_DISABLE env = false →
  UNITY_MIN_FILES env ≠ 0 →
  UNITY_MAX_SOURCES env ≠ 0 →
  ∃ (r : PyVal) (evs : list Event),
    Generator.generator base_generator env source target cache_dir a w
    = (Ret r, {| log := log w ++ evs; files := files w |})
    ∧ Observe.printed evs
      = match Flatten.others_of (Flatten.leaves (SList source)) with
        | [] => []
        | o :: others =>
            ["Exluded " +:+ pretty (Z.of_nat (S (length others)))
             +:+ " node(s) from Unity build."]
        end.
Proof.
  intros Hd HK HM.
  destruct (enabled_arithmetic
              (Py.len (Flatten._flatten_source source).1) _ _ HK HM)
    as (s & n & Hs & Hn).
  eexists. eexists. split.
  - apply (generator_enabled_run base_generator env source target cache_dir
             a w s n Hd Hs Hn).
  - unfold Generator.enabled_events, Observe.printed.
    rewrite !omap_app. fold (Observe.printed
      (Generator.unity_source_events
         (Generator.resolve_cache_dir env cache_dir) target
         (Flatten._flatten_source source).1 s n)).
    rewrite unity_events_printed, flatten_source_spec. cbn [snd].
    destruct (Flatten.others_of _) as [|o others]; [reflexivity|].
    unfold Py.len. cbn [length].
    replace (0 <? Z.of_nat (S (length others))) with true
      by (symmetry; apply Z.ltb_lt; lia).
    reflexivity.
Qed.

Lemma X17_excluded_message_witness :
  let base := λ (_ : string) (_ : list SourceItem) (_ : Args), VObj (Obj 7) in
  let env := {| UNITY_DISABLE := false; UNITY_MIN_FILES := 2;
                UNITY_MAX_SOURCES := 15; UNITY_CACHE_DIR := CacheStr ".unity" |} in
  let source := [SList [SStr "a.cpp"; SOther (Obj 1)]; SOther (Obj 2)] in
  UNITY_DISABLE env = false ∧ UNITY_MIN_FILES env ≠ 0
  ∧ UNITY_MAX_SOURCES env ≠ 0
  ∧ ∃ (r : PyVal) (evs : list Event),
      Generator.generator base env source "prog" None
        {| args := []; kwargs := [] |} {| log := []; files := ∅ |}
      = (Ret r, {| log := evs; files := ∅ |})
      ∧ Observe.printed evs = ["Exluded 2 node(s) from Unity build."].
Proof.
  cbv zeta. split; [reflexivity|]. split; [cbn; lia|]. split; [cbn; lia|].
  apply (X17_excluded_message (λ _ _ _, VObj (Obj 7))
           {| UNITY_DISABLE := false; UNITY_MIN_FILES := 2;
              UNITY_MAX_SOURCES := 15; UNITY_CACHE_DIR := CacheStr ".unity" |}
           [SList [SStr "a.cpp"; SOther (Obj 1)]; SOther (Obj 2)] "prog" None
           {| args := []; kwargs := [] |} {| log := []; files := ∅ |});
    [reflexivity|cbn; lia|cbn; lia].
Defined.

(** X18.  With [UNITY_DISABLE] unset and neither option zero, the first
    thing the generator does is make one directory, and it makes no other:
    the [cache_dir] argument when it is a [Dir] node or a non-empty string,
    the environment's [UNITY_CACHE_DIR] when the argument is absent or the
    empty string. *)
Theorem X18_cache_dir_made_first
    (base_generator : string → list SourceItem → Args → PyVal)
    (env : Env) (source : list SourceItem) (target : string)
    (cache_dir : option CacheDir) (a : Args) (w : World) :
  UNITY_DISABLE env = false →
  UNITY_MIN_FILES env ≠ 0 →
  UNITY_MAX_SOURCES env ≠ 0 →
  let dir :=
    match cache_dir with
    | Some (CacheNode d) => abspath d
    | Some (CacheStr s) =>
        if decide (s = EmptyString)
        then Observe.cache_dir_path (UNITY_CACHE_DIR env)
        else s
    | None => Observe.cache_dir_path (UNITY_CACHE_DIR env)
    end in
  ∃ (r : PyVal) (evs : list Event),
    Generator.generator base_generator env source target cache_dir a w
    = (Ret r, {| log := log w ++ evs; files := files w |})
    ∧ head evs = Some (EvMakedirs dir)
    ∧ Observe.made_dirs evs = [dir].
Proof.
  intros Hd HK HM dir.
  destruct (enabled_arithmetic
              (Py.len (Flatten._flatten_source source).1) _ _ HK HM)
    as (s & n & Hs & Hn).
  assert (Generator.resolve_cache_dir env cache_dir = dir) as Hdir.
  { subst dir. unfold Generator.resolve_cache_dir, Generator.cache_dir_given,
      Observe.cache_dir_path.
    destruct cache_dir as [[c|d]|]; try reflexivity.
    destruct (decide (c = EmptyString)) as [->|Hc]; [reflexivity|].
    by rewrite (proj2 (String.eqb_neq c EmptyString) Hc). }
  eexists. eexists. split.
  - apply (generator_enabled_run base_generator env source target cache_dir
             a w s n Hd Hs Hn).
  - rewrite Hdir. unfold Generator.enabled_events. split; [reflexivity|].
    unfold Observe.made_dirs. rewrite !omap_app.
    fold (Observe.made_dirs
            (Generator.unity_source_events dir target
               (Flatten._flatten_source source).1 s n)).
    rewrite unity_events_made_dirs.
    by destruct (0 <? Py.len _).
Qed.

Lemma X18_cache_dir_made_first_witness :
  let base := λ (_ : string) (_ : list SourceItem) (_ : Args), VObj (Obj 7) in
  let env := {| UNITY_DISABLE := false; UNITY_MIN_FILES := 2;
                UNITY_MAX_SOURCES := 15; UNITY_CACHE_DIR := CacheStr ".unity" |} in
  UNITY_DISABLE env = false ∧ UNITY_MIN_FILES env ≠ 0
  ∧ UNITY_MAX_SOURCES env ≠ 0
  ∧ ∃ (r : PyVal) (evs : list Event),
      Generator.generator base env [SStr "a.cpp"] "prog"
        (Some (CacheStr "build/agg"))
        {| args := []; kwargs := [] |} {| log := []; files := ∅ |}
      = (Ret r, {| log := evs; files := ∅ |})
      ∧ head evs = Some (EvMakedirs "build/agg")
      ∧ Observe.made_dirs evs = ["build/agg"].
Proof.
  cbv zeta. split; [reflexivity|]. split; [cbn; lia|]. split; [cbn; lia|].
  apply (X18_cache_dir_made_first (λ _ _ _, VObj (Obj 7))
           {| UNITY_DISABLE := false; UNITY_MIN_FILES := 2;
              UNITY_MAX_SOURCES := 15; UNITY_CACHE_DIR := CacheStr ".unity" |}
           [SStr "a.cpp"] "prog" (Some (CacheStr "build/agg"))
           {| args := []; kwargs := [] |} {| log := []; files := ∅ |});
    [reflexivity|cbn; lia|cbn; lia].
Defined.

(** X19.  The aggregates of one call have pairwise different file names,
    one per group. *)
Theorem X19_aggregate_names_distinct (cache_dir target : string) (n : Z) :
  NoDup (Generator.aggregates cache_dir target n)
  ∧ length (Generator.aggregates cache_dir target n) = Z.to_nat n.
Proof.
  unfold Generator.aggregates, Py.range. split.
  - apply NoDup_fmap_2_strong; [|apply NoDup_seqZ].
    intros i j _ _. apply unity_filename_inj.
  - by rewrite length_fmap, length_seqZ.
Qed.

(** X20.  The names of the aggregates depend on the target through its base
    name only: a target [d/f], with no slash in [f], gets the aggregates of
    the target [f], so two targets of the same base name in different
    directories share their aggregate files when they share the cache
    directory. *)
Theorem X20_aggregate_names_ignore_directory
    (cache_dir d f : string) (n : Z) :
  Observe.no_slash f = true →
  Generator.aggregates cache_dir (d +:+ "/" +:+ f) n
  = Generator.aggregates cache_dir f n.
Proof.
  intros Hf. unfold Generator.aggregates.
  rewrite (basename_dir d f Hf).
  unfold Py.basename. by rewrite (basename_from_no_slash EmptyString f Hf).
Qed.

Lemma X20_aggregate_names_ignore_directory_witness :
  Observe.no_slash "prog" = true
  ∧ Generator.aggregates ".unity" ("tools" +:+ "/" +:+ "prog") 2
    = Generator.aggregates ".unity" "prog" 2.
Proof.
  split; [reflexivity|].
  apply (X20_aggregate_names_ignore_directory ".unity" "tools" "prog" 2).
  reflexivity.
Defined.
